(** * The analyzer registry of codesitter (src/codesitter/analyzers/registry.py)

    A shallow embedding of [AnalyzerRegistry], of the module-level
    [register_defaults], and of the parts of the Python library that the
    registry calls on file names ([os.path.splitext], [str.lower],
    [Path.stem], [str.startswith]).

    Conventions of the embedding.
    - A Python [str] is the [string] of the bytes of its UTF-8 encoding.
      The dot and the separator are single bytes that occur in the encoding
      of no other character, so [rfind], the slices, [startswith] and
      [endswith] act on the bytes as they act on the characters; indices
      are byte offsets.
    - [str.lower] is Unicode lower-casing. Its tables are not written out:
      the development is parameterised by it ([StrLower]).
    - [os.path] is [posixpath]: the separator is [/], there is no
      alternative separator.
    - A Python [dict] keeps its keys in insertion order and the order of
      [_analyzers.values()] is observable through [list_analyzers], so
      [_analyzers] is an association list with Python's update discipline
      ([PyDict]). [_extension_map] is only read by key: a [gmap].
    - Indices are [Z], as [str.rfind] answers [-1]. *)

From Stdlib Require Import ZArith Ascii String.
From stdpp Require Import gmap strings list fin_maps.

Local Open Scope string_scope.
Local Open Scope Z_scope.

(** ** Python strings *)

Module PyStr.

(** [len(s)]. *)
Definition len (s : string) : Z := Z.of_nat (String.length s).

(** [s.rfind(c)] for a one-character needle [c]: the highest index at
    which [c] occurs, [-1] when it does not occur. *)
Fixpoint rfind (c : ascii) (s : string) : Z :=
  match s with
  | EmptyString => -1
  | String a r =>
      let i := rfind c r in
      if 0 <=? i then i + 1
      else if Ascii.eqb a c then 0 else -1
  end.

Fixpoint take (n : nat) (s : string) : string :=
  match n, s with
  | O, _ => EmptyString
  | S _, EmptyString => EmptyString
  | S n', String a r => String a (take n' r)
  end.

Fixpoint drop (n : nat) (s : string) : string :=
  match n, s with
  | O, _ => s
  | S _, EmptyString => EmptyString
  | S n', String _ r => drop n' r
  end.

(** The slices [s[:i]] and [s[i:]] for an index [0 <= i]. *)
Definition slice_to (s : string) (i : Z) : string := take (Z.to_nat i) s.
Definition slice_from (s : string) (i : Z) : string := drop (Z.to_nat i) s.

(** [s[i:i+1]] for [0 <= i]: the one-character string at [i], or the
    empty string past the end. *)
Definition slice1 (s : string) (i : Z) : string :=
  take 1 (drop (Z.to_nat i) s).

(** One of the letters [A]..[Z]. *)
Definition is_ascii_upper (c : ascii) : bool :=
  let n := nat_of_ascii c in ((65 <=? n) && (n <=? 90))%nat.

Definition ascii_lower_char (c : ascii) : ascii :=
  if is_ascii_upper c then ascii_of_nat (nat_of_ascii c + 32) else c.

(** What [s.lower()] is when the only letters of [s] that have a lower-case
    form are among [A]..[Z] (ASCII text, for one): these become [a]..[z],
    every other byte is left as it is. *)
Fixpoint ascii_lower (s : string) : string :=
  match s with
  | EmptyString => EmptyString
  | String a r => String (ascii_lower_char a) (ascii_lower r)
  end.

(** [s.startswith(p)]. *)
Fixpoint startswith (p s : string) : bool :=
  match p, s with
  | EmptyString, _ => true
  | String _ _, EmptyString => false
  | String a p', String b s' => Ascii.eqb a b && startswith p' s'
  end.

(** [s.endswith(p)]. *)
Definition endswith (p s : string) : bool :=
  (String.length p <=? String.length s)%nat
  && String.eqb (drop (String.length s - String.length p) s) p.

(** Truth value of a string in a condition: non-empty. *)
Definition truthy (s : string) : bool :=
  match s with EmptyString => false | String _ _ => true end.

(** Some character of [s] satisfies [f]. *)
Fixpoint existsb (f : ascii -> bool) (s : string) : bool :=
  match s with
  | EmptyString => false
  | String a r => f a || existsb f r
  end.

End PyStr.

(** ** str.lower

    [str.lower] is the lower-casing of the Python library, driven by the
    Unicode tables (['.É'] becomes ['.é'], and the lower-case form of a
    sigma depends on its place in the word). The tables are not part of
    this development: [lower] is a parameter, with the two laws of
    [str.lower] that the proofs use. It maps the empty string to itself;
    and its result is unchanged by a second application, as no character
    that it produces has a lower-case form of its own. *)

Class StrLower : Type := {
  lower : string -> string;
  lower_empty : lower "" = "";
  lower_idempotent : forall s, lower (lower s) = lower s
}.

(** ** os.path.splitext (posixpath, over genericpath._splitext) *)

Module OsPath.
Import PyStr.

Definition sep : ascii := "/"%char.
Definition extsep : ascii := "."%char.

(** The [while filenameIndex < dotIndex] loop of [_splitext]: [n] is the
    number of iterations left, [dotIndex - filenameIndex]. It answers
    [true] when the loop returns the split from inside (a character other
    than the dot was met), [false] when it runs out. *)
Fixpoint skip_leading_dots (p : string) (filenameIndex : Z) (n : nat) : bool :=
  match n with
  | O => false
  | S n' =>
      if negb (String.eqb (slice1 p filenameIndex) (String extsep EmptyString))
      then true
      else skip_leading_dots p (filenameIndex + 1) n'
  end.

(** [genericpath._splitext(p, sep, None, extsep)]. *)
Definition splitext (p : string) : string * string :=
  let sepIndex := rfind sep p in
  let dotIndex := rfind extsep p in
  if (sepIndex <? dotIndex)
     && skip_leading_dots p (sepIndex + 1) (Z.to_nat (dotIndex - (sepIndex + 1)))
  then (slice_to p dotIndex, slice_from p dotIndex)
  else (p, slice_to p 0).

End OsPath.

(** [pathlib.PurePath.stem] of a final path component [name]. *)
Module PathLib.
Import PyStr.

Definition stem (name : string) : string :=
  let i := rfind "."%char name in
  if (0 <? i) && (i <? len name - 1) then slice_to name i else name.

(** [Path.glob("*.py")] keeps the entries whose name matches the pattern:
    any characters, then [.py]. *)
Definition glob_py (names : list string) : list string :=
  filter (fun name => endswith ".py" name) names.

End PathLib.

(** ** Python dictionaries with string keys

    Assigning to a key that is present replaces the value where the key
    stands; assigning to a new key appends it. *)

Module PyDict.

Definition dict (V : Type) : Type := list (string * V).

Definition empty {V} : dict V := [].

(** [d.get(k)]. *)
Fixpoint get {V} (k : string) (d : dict V) : option V :=
  match d with
  | [] => None
  | (k', v) :: r => if String.eqb k k' then Some v else get k r
  end.

(** [d[k] = v]. *)
Fixpoint set {V} (k : string) (v : V) (d : dict V) : dict V :=
  match d with
  | [] => [(k, v)]
  | (k', v') :: r =>
      if String.eqb k k' then (k, v) :: r else (k', v') :: set k v r
  end.

(** [k in d]. *)
Definition contains {V} (k : string) (d : dict V) : bool :=
  match get k d with Some _ => true | None => false end.

(** [d.keys()] and [d.values()], in iteration order. *)
Definition keys {V} (d : dict V) : list string := fst <$> d.
Definition values {V} (d : dict V) : list V := snd <$> d.

End PyDict.

(** ** Analyzers

    [LanguageAnalyzer] (base.py) is the abstract interface the registry is
    written against. The registry reads an analyzer's [language_name], its
    [supported_extensions] and its class; equality on the carrier is
    identity of the instance. *)

Record PyType : Type := {
  __module__ : string;
  __name__ : string
}.

Class LanguageAnalyzer (A : Type) : Type := {
  language_name : A -> string;
  supported_extensions : A -> list string;
  (** [type(analyzer)], which is [analyzer.__class__]. *)
  type_of : A -> PyType
}.

(** [analyzer.__class__.__name__]. *)
Definition class_name {A} `{LanguageAnalyzer A} (analyzer : A) : string :=
  __name__ (type_of analyzer).

Definition PyType_eqb (t u : PyType) : bool :=
  String.eqb (__module__ t) (__module__ u) && String.eqb (__name__ t) (__name__ u).

(** ** Exceptions and the log

    What a Python computation raises. [Exception m] is an instance of
    [Exception]: an [OSError], an [ImportError], a [TypeError] and so on.
    [BaseException m] is an instance of [BaseException] that is no instance
    of [Exception]: [SystemExit], [KeyboardInterrupt], [GeneratorExit]. *)

Inductive PyException : Type :=
| Exception (message : string)
| BaseException (message : string).

(** [isinstance(e, Exception)]: what [except Exception] catches. *)
Definition isinstance_Exception (e : PyException) : bool :=
  match e with
  | Exception _ => true
  | BaseException _ => false
  end.

Inductive LogRecord : Type :=
| DebugReplacing (old new : string) (language : string)
| WarningNoDirectory (path : string)
| DebugRegistered (attr_name module_name : string)
| ErrorFailedToLoad (module_name : string) (e : PyException).

(** ** The registry *)

Record AnalyzerRegistry (A : Type) : Type := {
  _analyzers : PyDict.dict A;
  _extension_map : gmap string string
}.
Arguments _analyzers {A} _.
Arguments _extension_map {A} _.

Section Registry.
Context {A : Type} `{LanguageAnalyzer A} `{StrLower}.

(** [AnalyzerRegistry.__init__]. *)
Definition init : AnalyzerRegistry A :=
  {| _analyzers := PyDict.empty; _extension_map := ∅ |}.

(** The loop [for ext in analyzer.supported_extensions:
    self._extension_map[ext] = language]. *)
Definition map_extensions (language : string) (exts : list string)
    (m : gmap string string) : gmap string string :=
  foldl (fun m ext => <[ext := language]> m) m exts.

(** [AnalyzerRegistry.register]: the state after the call. *)
Definition register (self : AnalyzerRegistry A) (analyzer : A) : AnalyzerRegistry A :=
  let language := language_name analyzer in
  {| _analyzers := PyDict.set language analyzer (_analyzers self);
     _extension_map :=
       map_extensions language (supported_extensions analyzer) (_extension_map self) |}.

(** What [register] writes to the log. *)
Definition register_log (self : AnalyzerRegistry A) (analyzer : A) : list LogRecord :=
  let language := language_name analyzer in
  match PyDict.get language (_analyzers self) with
  | Some old =>
      if negb (PyType_eqb (type_of old) (type_of analyzer))
      then [DebugReplacing (__name__ (type_of old)) (__name__ (type_of analyzer)) language]
      else []
  | None => []
  end.

(** The extension [get_analyzer_for_file] looks up:
    [os.path.splitext(filename)[1].lower()]. *)
Definition file_ext (filename : string) : string :=
  lower (snd (OsPath.splitext filename)).

(** [AnalyzerRegistry.get_analyzer_for_file]. *)
Definition get_analyzer_for_file (self : AnalyzerRegistry A) (filename : string)
    : option A :=
  let ext := file_ext filename in
  match _extension_map self !! ext with
  | Some language =>
      if PyStr.truthy language then PyDict.get language (_analyzers self) else None
  | None => None
  end.

(** [AnalyzerRegistry.get_analyzer_by_language]. *)
Definition get_analyzer_by_language (self : AnalyzerRegistry A) (language : string)
    : option A :=
  PyDict.get language (_analyzers self).

(** [AnalyzerRegistry.list_supported_extensions]: a copy of the map. *)
Definition list_supported_extensions (self : AnalyzerRegistry A)
    : gmap string string :=
  _extension_map self.

(** One turn of the loop of [list_analyzers]. *)
Definition list_analyzers_step (result : PyDict.dict (list string)) (analyzer : A)
    : PyDict.dict (list string) :=
  let class_name := class_name analyzer in
  let result :=
    if negb (PyDict.contains class_name result)
    then PyDict.set class_name [] result else result in
  PyDict.set class_name
    (default [] (PyDict.get class_name result) ++ supported_extensions analyzer)%list
    result.

(** [AnalyzerRegistry.list_analyzers]. *)
Definition list_analyzers (self : AnalyzerRegistry A) : PyDict.dict (list string) :=
  foldl list_analyzers_step PyDict.empty (PyDict.values (_analyzers self)).

(** The registry after a sequence of [register] calls. *)
Definition register_all (self : AnalyzerRegistry A) (l : list A) : AnalyzerRegistry A :=
  foldl register self l.

(** A registry is reachable when calls of [register] build it from the
    empty one. *)
Definition reachable (self : AnalyzerRegistry A) : Prop :=
  exists l : list A, self = register_all init l.

End Registry.

(** ** Module-level functions on the global registry [_registry]

    The global instance is threaded through as an argument. *)

Section Globals.
Context {A : Type} `{LanguageAnalyzer A} `{StrLower}.

(** [get_analyzer]. *)
Definition get_analyzer (_registry : AnalyzerRegistry A) (filename : string)
    : option A :=
  get_analyzer_for_file _registry filename.

(** [register_analyzer]. *)
Definition register_analyzer (_registry : AnalyzerRegistry A) (analyzer : A)
    : AnalyzerRegistry A :=
  register _registry analyzer.

(** [DefaultAnalyzer(extensions, language)] of base.py, which is not among
    the sources: the constructor is a parameter. *)
Variable DefaultAnalyzer : list string -> string -> A.

Definition skip_languages : gset string :=
  {[ "typescript"; "javascript"; "python"; "java" ]}.

Definition defaults : list A :=
  [ DefaultAnalyzer [".html"; ".htm"] "html";
    DefaultAnalyzer [".css"; ".scss"; ".sass"] "css";
    DefaultAnalyzer [".json"] "json";
    DefaultAnalyzer [".yaml"; ".yml"] "yaml";
    DefaultAnalyzer [".toml"] "toml";
    DefaultAnalyzer [".xml"] "xml";
    DefaultAnalyzer [".sh"; ".bash"] "bash";
    DefaultAnalyzer [".c"] "c";
    DefaultAnalyzer [".cpp"; ".cc"; ".cxx"] "cpp";
    DefaultAnalyzer [".rs"] "rust";
    DefaultAnalyzer [".go"] "go";
    DefaultAnalyzer [".rb"] "ruby";
    DefaultAnalyzer [".php"] "php";
    DefaultAnalyzer [".swift"] "swift";
    DefaultAnalyzer [".kt"; ".kts"] "kotlin";
    DefaultAnalyzer [".scala"] "scala" ].

(** One turn of the loop of [register_defaults]. *)
Definition register_default_step (_registry : AnalyzerRegistry A) (analyzer : A)
    : AnalyzerRegistry A :=
  if bool_decide (language_name analyzer ∉ skip_languages)
  then register_analyzer _registry analyzer
  else _registry.

(** [register_defaults]. *)
Definition register_defaults (_registry : AnalyzerRegistry A) : AnalyzerRegistry A :=
  foldl register_default_step _registry defaults.

End Globals.

(** ** Plugin discovery

    [auto_discover] reads the file system, imports modules and writes to
    the log. The file system and the import machinery are an environment;
    the registry and the log are the state of a small monad in which a
    computation returns or raises, and what it did before raising stays
    done. *)

Inductive outcome (X : Type) : Type :=
| Returned (x : X)
| Raised (e : PyException).
Arguments Returned {X} _.
Arguments Raised {X} _.

(** What a path names. [StatError e] is a path whose [stat] fails with an
    [OSError] that [Path.exists] does not take for an absent file (a name
    that is too long, a directory that may not be searched): [Path.exists]
    raises it again. *)
Inductive FsEntry : Type :=
| Missing
| NotDirectory
| Directory (names : list string)
| StatError (e : PyException).

(** A value found in a module by [getattr]. [call] is what calling a class
    without arguments does. *)
Inductive PyObject (A : Type) : Type :=
| NotAType
| Class (subclass_of_LanguageAnalyzer : bool) (is_LanguageAnalyzer : bool)
        (call : outcome A).
Arguments NotAType {A}.
Arguments Class {A} _ _ _.

(** A module as [dir(module)] and [getattr] show it: names with values,
    in the order of [dir]. *)
Definition PyModule (A : Type) : Type := list (string * PyObject A).

Record Env (A : Type) : Type := {
  (** [Path(__file__).parent / "languages"] *)
  default_path : string;
  fs : string -> FsEntry;
  (** [importlib.import_module] *)
  import_module : string -> outcome (PyModule A);
  (** The content of the file [name] of the directory [path]: what
      executing it as a module gives. *)
  file_module : string -> string -> outcome (PyModule A)
}.
Arguments default_path {A} _.
Arguments fs {A} _ _.
Arguments import_module {A} _ _.
Arguments file_module {A} _ _ _.

Record World (A : Type) : Type := {
  registry : AnalyzerRegistry A;
  log : list LogRecord
}.
Arguments registry {A} _.
Arguments log {A} _.

Definition M (A X : Type) : Type := World A -> World A * outcome X.

Global Instance M_ret {A} : MRet (M A) :=
  fun X x w => (w, Returned x).

Global Instance M_bind {A} : MBind (M A) :=
  fun X Y f m w =>
    match m w with
    | (w', Returned x) => f x w'
    | (w', Raised e) => (w', Raised e)
    end.

Section Discovery.
Context {A : Type} `{LanguageAnalyzer A}.

Definition lift {X} (o : outcome X) : M A X := fun w => (w, o).

(** [try: body except Exception as e: handler(e)]. *)
Definition try_except (body : M A unit) (handler : PyException -> M A unit)
    : M A unit :=
  fun w =>
    match body w with
    | (w', Returned x) => (w', Returned x)
    | (w', Raised e) =>
        if isinstance_Exception e then handler e w' else (w', Raised e)
    end.

(** A call of a [logger] method. *)
Definition emit (r : LogRecord) : M A unit :=
  fun w => ({| registry := registry w; log := log w ++ [r] |}, Returned tt).

(** [self.register(analyzer)] on the registry of the state. *)
Definition call_register (analyzer : A) : M A unit :=
  fun w =>
    ({| registry := register (registry w) analyzer;
        log := log w ++ register_log (registry w) analyzer |}, Returned tt).

(** [for x in l: body(x)]. *)
Fixpoint for_each {X} (l : list X) (body : X -> M A unit) : M A unit :=
  match l with
  | [] => mret tt
  | x :: r => body x ;; for_each r body
  end.

Definition isinstance_type (attr : PyObject A) : bool :=
  match attr with NotAType => false | Class _ _ _ => true end.

Definition issubclass_LanguageAnalyzer (attr : PyObject A) : bool :=
  match attr with NotAType => false | Class s _ _ => s end.

Definition is_LanguageAnalyzer (attr : PyObject A) : bool :=
  match attr with NotAType => false | Class _ b _ => b end.

(** [attr()]. *)
Definition call (attr : PyObject A) : outcome A :=
  match attr with
  | NotAType => Raised (Exception "object is not callable")
  | Class _ _ c => c
  end.

Variable env : Env A.

(** [path.exists()]. *)
Definition path_exists (path : string) : outcome bool :=
  match fs env path with
  | Missing => Returned false
  | NotDirectory | Directory _ => Returned true
  | StatError e => Raised e
  end.

(** [path.glob("*.py")]: names of matching entries, in the order the
    directory is read; nothing for a path that is not a directory. *)
Definition glob (path : string) : list string :=
  match fs env path with
  | Directory names => PathLib.glob_py names
  | _ => []
  end.

Definition module_name_of (py_file : string) : string :=
  "codesitter.analyzers.languages." +:+ PathLib.stem py_file.

(** The body of the loop over [dir(module)]. *)
Definition register_plugin_class (module_name : string)
    (entry : string * PyObject A) : M A unit :=
  let '(attr_name, attr) := entry in
  if isinstance_type attr
     && issubclass_LanguageAnalyzer attr
     && negb (is_LanguageAnalyzer attr)
  then
    analyzer_instance ← lift (call attr);
    call_register analyzer_instance;;
    emit (DebugRegistered attr_name module_name)
  else mret tt.

(** The body of the [try] for one module. *)
Definition load_plugin (module_name : string) : M A unit :=
  module ← lift (import_module env module_name);
  for_each module (register_plugin_class module_name).

(** The body of the loop over the files. *)
Definition discover_file (py_file : string) : M A unit :=
  if PyStr.startswith "__" py_file then mret tt
  else
    let module_name := module_name_of py_file in
    try_except (load_plugin module_name)
      (fun e => emit (ErrorFailedToLoad module_name e)).

(** The directory that is searched: the argument, or the default when
    the argument is [None]. *)
Definition directory_of (path : option string) : string :=
  match path with
  | None => default_path env
  | Some p => p
  end.

(** [AnalyzerRegistry.auto_discover]. *)
Definition auto_discover (path : option string) : M A unit :=
  let path := directory_of path in
  path_exists ← lift (path_exists path);
  if negb path_exists then emit (WarningNoDirectory path)
  else for_each (glob path) discover_file.

End Discovery.

(** ** The extension of a file name, in the words of the specification

    "The substring from the last [.] to the end of the final path segment,
    case-folded to lower-case (no extension: empty string)". *)

Module Spec.
Import PyStr.

Definition final_segment (path : string) : string :=
  slice_from path (rfind "/"%char path + 1).

Definition extension `{StrLower} (path : string) : string :=
  let segment := final_segment path in
  let i := rfind "."%char segment in
  if i <? 0 then "" else lower (slice_from segment i).

End Spec.

Definition is_not_dot (c : ascii) : bool := negb (Ascii.eqb c "."%char).

(** A character other than the dot stands before the last dot of [segment]. *)
Definition name_before_last_dot (segment : string) : bool :=
  PyStr.existsb is_not_dot
    (PyStr.slice_to segment (PyStr.rfind "."%char segment)).

(** An extension that [splitext] can give back whole: empty, or a dot
    followed by characters that are neither a dot nor a separator. *)
Definition is_plain_extension (e : string) : bool :=
  match e with
  | EmptyString => true
  | String c r =>
      Ascii.eqb c "."%char
      && negb (PyStr.existsb
                 (fun c => Ascii.eqb c "."%char || Ascii.eqb c "/"%char) r)
  end.

(** ** What a scan registers

    The files [auto_discover] tries, the analyzers a module yields before
    its first failure, and the analyzers of a whole scan in order: first as
    the modules that the scan imports give them, then as the files of the
    directory give them. *)

Section Scan.
Context {A : Type} `{LanguageAnalyzer A}.
Variable env : Env A.

Definition is_plugin_class (attr : PyObject A) : bool :=
  isinstance_type attr && issubclass_LanguageAnalyzer attr
  && negb (is_LanguageAnalyzer attr).

Fixpoint instances (module : PyModule A) : list A :=
  match module with
  | [] => []
  | (_, attr) :: r =>
      if is_plugin_class attr
      then match call attr with
           | Returned a => a :: instances r
           | Raised _ => []
           end
      else instances r
  end.

(** The exception at which the scan of a module stops, if there is one. *)
Fixpoint instantiation_failure (module : PyModule A) : option PyException :=
  match module with
  | [] => None
  | (_, attr) :: r =>
      if is_plugin_class attr
      then match call attr with
           | Returned _ => instantiation_failure r
           | Raised e => Some e
           end
      else instantiation_failure r
  end.

(** Of the module that the scan imports for [py_file]: the exception at
    which it stops, and the analyzers it yields before. *)
Definition imported_failure (py_file : string) : option PyException :=
  match import_module env (module_name_of py_file) with
  | Raised e => Some e
  | Returned module => instantiation_failure module
  end.

Definition imported_instances (py_file : string) : list A :=
  match import_module env (module_name_of py_file) with
  | Raised _ => []
  | Returned module => instances module
  end.

Definition candidates (path : string) : list string :=
  filter (fun py_file => negb (PyStr.startswith "__" py_file)) (glob env path).


(** What is left of a failure after the handler of the scan: an
    [Exception] is caught, anything else goes on. *)
Definition after_handler (failure : option PyException) : outcome unit :=
  match failure with
  | Some e => if isinstance_Exception e then Returned tt else Raised e
  | None => Returned tt
  end.

(** Of the plugin file [py_file] of the directory [path]: the exception
    that loading it and instantiating its analyzer classes raises, if there
    is one, and the analyzers it yields before. *)
Definition file_failure (path py_file : string) : option PyException :=
  match file_module env path py_file with
  | Raised e => Some e
  | Returned module => instantiation_failure module
  end.

Definition file_instances (path py_file : string) : list A :=
  match file_module env path py_file with
  | Raised _ => []
  | Returned module => instances module
  end.



End Scan.

(** ** Sample analyzers

    A concrete carrier for the interface: an instance with an identity,
    a class, a language name and its extensions. *)

Record Plugin : Type := {
  plugin_id : nat;
  plugin_type : PyType;
  plugin_language : string;
  plugin_extensions : list string
}.

Global Instance Plugin_LanguageAnalyzer : LanguageAnalyzer Plugin := {|
  language_name := plugin_language;
  supported_extensions := plugin_extensions;
  type_of := plugin_type
|}.

Global Instance PyType_eq_dec : EqDecision PyType.
Proof. solve_decision. Defined.

Definition generic_type : PyType :=
  {| __module__ := "codesitter.analyzers.base"; __name__ := "DefaultAnalyzer" |}.

(** Modelled from the spec: base.py, with the class [DefaultAnalyzer], is
    not among the sources. "An opaque generic analyzer bound to
    file-extension sets": the instance answers the language name and the
    extensions it was built with. *)
Definition sample_DefaultAnalyzer (exts : list string) (language : string) : Plugin :=
  {| plugin_id := 0; plugin_type := generic_type;
     plugin_language := language; plugin_extensions := exts |}.

Definition class_in (module_stem name : string) : PyType :=
  {| __module__ := "codesitter.analyzers.languages." +:+ module_stem;
     __name__ := name |}.

(** A Rust analyzer of its own class, and the generic analyzer that
    [register_defaults] builds for the same language. *)
Definition rust_custom : Plugin :=
  {| plugin_id := 1; plugin_type := class_in "rust" "RustAnalyzer";
     plugin_language := "rust"; plugin_extensions := [".rs"; ".rlib"] |}.

Definition rust_generic : Plugin := sample_DefaultAnalyzer [".rs"] "rust".

(** An analyzer for compressed archives. *)
Definition archive_analyzer : Plugin :=
  {| plugin_id := 2; plugin_type := class_in "archive" "ArchiveAnalyzer";
     plugin_language := "archive"; plugin_extensions := [".tar.gz"] |}.

(** Two analyzers that claim [.foo], the second with an empty language name. *)
Definition foo_analyzer : Plugin :=
  {| plugin_id := 3; plugin_type := class_in "foo" "FooAnalyzer";
     plugin_language := "foo"; plugin_extensions := [".foo"] |}.

Definition nameless_analyzer : Plugin :=
  {| plugin_id := 4; plugin_type := class_in "nameless" "NamelessAnalyzer";
     plugin_language := ""; plugin_extensions := [".foo"] |}.

Definition foo_second : Plugin :=
  {| plugin_id := 5; plugin_type := class_in "foo2" "OtherFooAnalyzer";
     plugin_language := "foo2"; plugin_extensions := [".foo"; ".bar"] |}.

(** Two plugin modules that each define a class called [Analyzer]. *)
Definition go_analyzer : Plugin :=
  {| plugin_id := 6; plugin_type := class_in "go" "Analyzer";
     plugin_language := "go"; plugin_extensions := [".go"] |}.

Definition ruby_analyzer : Plugin :=
  {| plugin_id := 7; plugin_type := class_in "ruby" "Analyzer";
     plugin_language := "ruby"; plugin_extensions := [".rb"] |}.

(** An analyzer registered with the extension [.ϒ]: U+03D2, an upper-case
    letter (category Lu) that has no lower-case form, so that [str.lower]
    leaves it as it is. *)
Definition hook_analyzer : Plugin :=
  {| plugin_id := 11; plugin_type := class_in "hook" "HookAnalyzer";
     plugin_language := "hook"; plugin_extensions := [".ϒ"] |}.

(** An analyzer registered with an upper-case extension. *)
Definition shouting_analyzer : Plugin :=
  {| plugin_id := 8; plugin_type := class_in "shout" "ShoutAnalyzer";
     plugin_language := "shout"; plugin_extensions := [".RS"] |}.

(** A specialised Python analyzer. *)
Definition python_custom : Plugin :=
  {| plugin_id := 9; plugin_type := class_in "python" "PythonAnalyzer";
     plugin_language := "python"; plugin_extensions := [".py"; ".pyi"] |}.


(** A second analyzer for the language [foo], of another class. *)
Definition foo_rival : Plugin :=
  {| plugin_id := 10; plugin_type := class_in "foo_rival" "FooRival";
     plugin_language := "foo"; plugin_extensions := [".foo"] |}.

(** A plugin directory with two modules that load, one that raises on
    import, a package file and a file that is no Python source. *)
Definition sample_import (module_name : string) : outcome (PyModule Plugin) :=
  if String.eqb module_name "codesitter.analyzers.languages.foo" then
    Returned [ ("FooAnalyzer", Class true false (Returned foo_analyzer));
               ("LanguageAnalyzer",
                Class true true (Raised (Exception "abstract class")));
               ("logging", NotAType) ]
  else if String.eqb module_name "codesitter.analyzers.languages.foo_rival" then
    Returned [ ("FooRival", Class true false (Returned foo_rival));
               ("Path", Class false false (Raised (Exception "missing argument"))) ]
  else if String.eqb module_name "codesitter.analyzers.languages.broken" then
    Raised (Exception "invalid syntax")
  else Raised (Exception ("No module named " +:+ module_name)).

Definition sample_env : Env Plugin :=
  {| default_path := "codesitter/analyzers/languages";
     fs := fun path =>
       if String.eqb path "plugins" then
         Directory ["foo.py"; "broken.py"; "__init__.py"; "README.md"; "foo_rival.py"]
       else if String.eqb path "setup.py" then NotDirectory
       else Missing;
     import_module := sample_import;
     file_module := fun path name =>
       if String.eqb path "plugins" then sample_import (module_name_of name)
       else Raised (Exception "No such file or directory") |}.

Definition empty_world : World Plugin := {| registry := init; log := [] |}.

(** ** Further module-level functions *)

(** [auto_discover_analyzers]: the scan of the default directory, on the
    global registry. *)
Definition auto_discover_analyzers {A} `{LanguageAnalyzer A} (env : Env A)
    : M A unit :=
  auto_discover env None.

(** [get_registry]. *)
Definition get_registry {A} (_registry : AnalyzerRegistry A) : AnalyzerRegistry A :=
  _registry.

(** The rows of the list [defaults] of [register_defaults]: the two
    arguments of each [DefaultAnalyzer(...)]. *)
Definition default_table : list (list string * string) :=
  [ ([".html"; ".htm"], "html");
    ([".css"; ".scss"; ".sass"], "css");
    ([".json"], "json");
    ([".yaml"; ".yml"], "yaml");
    ([".toml"], "toml");
    ([".xml"], "xml");
    ([".sh"; ".bash"], "bash");
    ([".c"], "c");
    ([".cpp"; ".cc"; ".cxx"], "cpp");
    ([".rs"], "rust");
    ([".go"], "go");
    ([".rb"], "ruby");
    ([".php"], "php");
    ([".swift"], "swift");
    ([".kt"; ".kts"], "kotlin");
    ([".scala"], "scala") ].

(** The default analyzer of a row of the table. *)
Definition build_default {A} (DefaultAnalyzer : list string -> string -> A)
    (row : list string * string) : A :=
  DefaultAnalyzer row.1 row.2.

(** A plugin module whose second analyzer class fails: what stands before
    the failure, the failing class, and what stands after it. *)
Definition half_broken_import (module_name : string) : outcome (PyModule Plugin) :=
  if String.eqb module_name "codesitter.analyzers.languages.mixed" then
    Returned [ ("AFoo", Class true false (Returned foo_analyzer));
               ("Broken", Class true false (Raised (Exception "boom")));
               ("ZRuby", Class true false (Returned ruby_analyzer)) ]
  else if String.eqb module_name "codesitter.analyzers.languages.helpers" then
    Returned [ ("LanguageAnalyzer",
                Class true true (Raised (Exception "abstract class")));
               ("Path", Class false false (Raised (Exception "missing argument")));
               ("logger", NotAType) ]
  else Raised (Exception ("No module named " +:+ module_name)).

Definition half_broken_env : Env Plugin :=
  {| default_path := "languages";
     fs := fun path =>
       if String.eqb path "languages" then
         Directory ["mixed.py"; "helpers.py"; "notes.txt"; "__init__.py"]
       else if String.eqb path "docs" then
         Directory ["README.md"; "__init__.py"; "conf.py.bak"]
       else Missing;
     import_module := half_broken_import;
     file_module := fun path name => half_broken_import (module_name_of name) |}.



(** A directory outside the plugin package, with one plugin file that
    loads; the package has no module of that name. *)
Definition outside_env : Env Plugin :=
  {| default_path := "languages";
     fs := fun path =>
       if String.eqb path "/opt/plugins" then Directory ["ext.py"] else Missing;
     import_module := fun module_name =>
       Raised (Exception ("No module named " +:+ module_name));
     file_module := fun path name =>
       if String.eqb path "/opt/plugins" && String.eqb name "ext.py" then
         Returned [ ("ExtAnalyzer", Class true false (Returned go_analyzer)) ]
       else Raised (Exception "No such file or directory") |}.

(** A path of three hundred letters: longer than a file name may be. *)
Fixpoint letters (n : nat) : string :=
  match n with
  | O => ""
  | S n' => String "a"%char (letters n')
  end.

Definition long_name : string := letters 300.

Definition long_name_env : Env Plugin :=
  {| default_path := "languages";
     fs := fun path =>
       if String.eqb path long_name
       then StatError (Exception "[Errno 36] File name too long")
       else Missing;
     import_module := fun module_name =>
       Raised (Exception ("No module named " +:+ module_name));
     file_module := fun path name =>
       Raised (Exception "No such file or directory") |}.

(** * Properties *)

(** ** Strings *)

Module PyStrFacts.
Import PyStr.

Lemma rfind_lower_bound c s : -1 <= rfind c s.
Proof.
  induction s as [|a r IH]; simpl; [lia|].
  destruct (0 <=? rfind c r) eqn:E; [lia|].
  destruct (Ascii.eqb a c); lia.
Qed.

Lemma rfind_upper_bound c s : rfind c s < len s.
Proof.
  unfold len. induction s as [|a r IH]; simpl; [lia|].
  destruct (0 <=? rfind c r) eqn:E; [lia|].
  destruct (Ascii.eqb a c); lia.
Qed.

(** [rfind] finds nothing exactly when the character does not occur. *)
Lemma rfind_absent c s :
  existsb (fun a => Ascii.eqb a c) s = false -> rfind c s = -1.
Proof.
  induction s as [|a r IH]; simpl; [done|].
  intros [Ha Hr]%orb_false_iff. rewrite (IH Hr), Ha. reflexivity.
Qed.

(** The last occurrence in a suffix is the last occurrence in the whole,
    when that lies in the suffix. *)
Lemma rfind_drop c n s :
  rfind c (drop n s) =
  if Z.of_nat n <=? rfind c s then rfind c s - Z.of_nat n else -1.
Proof.
  revert s. induction n as [|n IH]; intros s.
  - simpl drop. pose proof (rfind_lower_bound c s).
    destruct (Z.leb_spec (Z.of_nat 0) (rfind c s)); lia.
  - destruct s as [|a r]; [reflexivity|].
    simpl drop. rewrite IH. simpl rfind.
    pose proof (rfind_lower_bound c r).
    destruct (Z.leb_spec 0 (rfind c r)).
    + destruct (Z.leb_spec (Z.of_nat n) (rfind c r));
        destruct (Z.leb_spec (Z.of_nat (S n)) (rfind c r + 1)); lia.
    + destruct (Z.leb_spec (Z.of_nat n) (rfind c r)); [lia|].
      destruct (Ascii.eqb a c);
        match goal with |- context [?x <=? ?y] => destruct (Z.leb_spec x y) end;
        lia.
Qed.

Lemma drop_drop n m s : drop n (drop m s) = drop (m + n) s.
Proof.
  revert s. induction m as [|m IH]; intros s; [reflexivity|].
  destruct s as [|a r]; simpl; [by destruct n|apply IH].
Qed.

Lemma ascii_lower_char_idemp c :
  ascii_lower_char (ascii_lower_char c) = ascii_lower_char c.
Proof. destruct c as [[] [] [] [] [] [] [] []]; reflexivity. Qed.

Lemma ascii_lower_idemp s : ascii_lower (ascii_lower s) = ascii_lower s.
Proof.
  induction s as [|a r IH]; simpl; [done|].
  by rewrite ascii_lower_char_idemp, IH.
Qed.

Lemma truthy_nonempty s : s <> "" -> truthy s = true.
Proof. by destruct s. Qed.

End PyStrFacts.

(** A sample of [str.lower]: [ascii_lower], which is [str.lower] on every
    string used as an example below. *)
Definition ascii_text : StrLower :=
  {| lower := PyStr.ascii_lower;
     lower_empty := eq_refl;
     lower_idempotent := PyStrFacts.ascii_lower_idemp |}.

(** ** splitext *)

Module OsPathFacts.
Import PyStr PyStrFacts OsPath.

(** The loop of [_splitext] looks for a character other than the dot
    among the [n] characters from [filenameIndex] on. *)
Lemma skip_leading_dots_spec p k n :
  (k + n <= String.length p)%nat ->
  skip_leading_dots p (Z.of_nat k) n = existsb is_not_dot (take n (drop k p)).
Proof.
  revert k. induction n as [|n IH]; intros k Hk; simpl.
  - by destruct (drop k p).
  - unfold slice1. rewrite Nat2Z.id.
    destruct (drop k p) as [|a r] eqn:E.
    + assert (String.length (drop k p) = 0%nat) as Hl by (by rewrite E).
      exfalso. clear E IH. revert p Hk Hl.
      induction k as [|k IHk]; intros [|b q]; simpl; intros; try lia.
      apply (IHk q); [lia|done].
    + simpl take at 1. simpl existsb.
      replace (Z.of_nat k + 1) with (Z.of_nat (S k)) by lia.
      rewrite IH by lia.
      replace (drop (S k) p) with r.
      2:{ replace (S k) with (k + 1)%nat by lia.
          rewrite <- drop_drop, E. reflexivity. }
      change (String extsep "") with (String "."%char "").
      assert (String.eqb (String a "") (String "."%char "") = Ascii.eqb a "."%char)
        as -> by (simpl; by destruct (Ascii.eqb a "."%char)).
      unfold is_not_dot.
      by destruct (Ascii.eqb a "."%char).
Qed.

End OsPathFacts.

(** ** The extension looked up for a file name *)

Example splitext_main_go : OsPath.splitext "src/main.GO" = ("src/main", ".GO").
Proof. reflexivity. Qed.

Example splitext_hidden_file : OsPath.splitext "home/.bashrc" = ("home/.bashrc", "").
Proof. reflexivity. Qed.

Example splitext_two_dots : OsPath.splitext "x.tar.gz" = ("x.tar", ".gz").
Proof. reflexivity. Qed.

Example splitext_dot_in_directory : OsPath.splitext "a.b/c" = ("a.b/c", "").
Proof. reflexivity. Qed.

Example stem_of_plugin_file : PathLib.stem "foo_rival.py" = "foo_rival".
Proof. reflexivity. Qed.

Section FileExt.
Import PyStr PyStrFacts OsPath OsPathFacts.

Lemma final_segment_rfind_dot p :
  rfind "."%char (Spec.final_segment p) =
  if rfind sep p <? rfind extsep p
  then rfind extsep p - (rfind sep p + 1) else -1.
Proof.
  unfold Spec.final_segment, slice_from.
  change "/"%char with sep. change "."%char with extsep.
  rewrite rfind_drop.
  pose proof (rfind_lower_bound sep p).
  rewrite Z2Nat.id by lia.
  destruct (Z.leb_spec (rfind sep p + 1) (rfind extsep p));
    destruct (Z.ltb_spec (rfind sep p) (rfind extsep p)); lia.
Qed.

Lemma splitext_snd p :
  snd (splitext p) =
  if name_before_last_dot (Spec.final_segment p)
  then slice_from p (rfind extsep p) else "".
Proof.
  unfold splitext, name_before_last_dot.
  rewrite final_segment_rfind_dot.
  pose proof (rfind_lower_bound sep p) as Hs.
  pose proof (rfind_upper_bound extsep p) as Hd. unfold len in Hd.
  destruct (Z.ltb_spec (rfind sep p) (rfind extsep p)) as [Hlt|Hge]; simpl.
  - replace (rfind sep p + 1) with (Z.of_nat (Z.to_nat (rfind sep p + 1)))
      at 1 by lia.
    rewrite skip_leading_dots_spec by lia.
    unfold Spec.final_segment, slice_from, slice_to.
    change "/"%char with sep.
    by destruct (existsb is_not_dot _).
  - reflexivity.
Qed.

(** The file name [x] followed by a plain extension: [splitext] gives the
    extension back. *)
Lemma splitext_x_plain e :
  is_plain_extension e = true -> snd (splitext ("x" +:+ e)) = e.
Proof.
  destruct e as [|c r]; [reflexivity|].
  simpl. intros [Hc Hr]%andb_true_iff.
  apply Ascii.eqb_eq in Hc as ->.
  apply negb_true_iff in Hr.
  assert (rfind sep r = -1) as Hsep.
  { apply rfind_absent. unfold sep. clear -Hr.
    induction r as [|a r IH]; simpl in *; [done|].
    apply orb_false_iff in Hr as [[_ Ha]%orb_false_iff Hr].
    by rewrite Ha, IH. }
  assert (rfind extsep r = -1) as Hdot.
  { apply rfind_absent. unfold extsep. clear -Hr.
    induction r as [|a r IH]; simpl in *; [done|].
    apply orb_false_iff in Hr as [[Ha _]%orb_false_iff Hr].
    by rewrite Ha, IH. }
  unfold splitext. simpl rfind. rewrite Hsep, Hdot. reflexivity.
Qed.

End FileExt.

Section FileExtClaims.
Context `{StrLower}.

(** C2, as amended: the extension looked up for a file name is the
    lower-cased substring from the last dot to the end of the final path
    segment when a character other than the dot stands before that dot in
    the segment, and the empty string otherwise (no dot in the segment, or
    only dots before the last one, as in [.bashrc]). *)
Theorem file_ext_is_suffix_after_name (filename : string) :
  file_ext filename =
  if name_before_last_dot (Spec.final_segment filename)
  then Spec.extension filename else "".
Proof.
  unfold file_ext. rewrite splitext_snd.
  destruct (name_before_last_dot (Spec.final_segment filename)) eqn:E;
    [|apply lower_empty].
  unfold Spec.extension.
  pose proof (final_segment_rfind_dot filename) as Hi.
  pose proof (PyStrFacts.rfind_lower_bound OsPath.sep filename) as Hs.
  destruct (Z.ltb_spec (PyStr.rfind OsPath.sep filename)
              (PyStr.rfind OsPath.extsep filename)) as [Hlt|Hge].
  - rewrite Hi. destruct (Z.ltb_spec
      (PyStr.rfind OsPath.extsep filename - (PyStr.rfind OsPath.sep filename + 1)) 0);
      [lia|].
    f_equal. unfold Spec.final_segment, PyStr.slice_from.
    rewrite PyStrFacts.drop_drop. f_equal.
    change "/"%char with OsPath.sep. lia.
  - unfold name_before_last_dot in E. rewrite Hi in E. discriminate E.
Qed.

End FileExtClaims.

Section FileExtSamples.
#[local] Existing Instance ascii_text.

(** C2, as stated, fails on a hidden file: the last dot of [.bashrc] opens
    the segment and [splitext] finds no extension. *)
Lemma file_ext_bashrc_differs :
  file_ext "home/.bashrc" = "" /\ Spec.extension "home/.bashrc" = ".bashrc"
  /\ file_ext "home/.bashrc" <> Spec.extension "home/.bashrc".
Proof. repeat split; try reflexivity. discriminate. Qed.

End FileExtSamples.

(** ** Dictionaries *)

Module PyDictFacts.
Import PyDict.

Lemma get_set_eq {V} k (v : V) d : get k (set k v d) = Some v.
Proof.
  induction d as [|[k' v'] r IH]; simpl.
  - by rewrite String.eqb_refl.
  - destruct (String.eqb_spec k k') as [->|Hne]; simpl.
    + by rewrite String.eqb_refl.
    + destruct (String.eqb_spec k k'); [done|apply IH].
Qed.

Lemma get_set_ne {V} k k' (v : V) d : k <> k' -> get k' (set k v d) = get k' d.
Proof.
  intros Hne. induction d as [|[k0 v0] r IH]; simpl.
  - destruct (String.eqb_spec k' k); [congruence|done].
  - destruct (String.eqb_spec k k0) as [->|Hk]; simpl.
    + destruct (String.eqb_spec k' k0); [congruence|done].
    + destruct (String.eqb_spec k' k0); [done|apply IH].
Qed.

Lemma get_set {V} k k' (v : V) d :
  get k' (set k v d) = if decide (k = k') then Some v else get k' d.
Proof.
  case_decide as Hk; [subst; apply get_set_eq|by apply get_set_ne].
Qed.

Lemma elem_of_keys {V} k (d : dict V) : k ∈ keys d <-> is_Some (get k d).
Proof.
  unfold keys. induction d as [|[k' v'] r IH]; simpl.
  - split; [by intros ?%elem_of_nil|by intros [? ?]].
  - rewrite elem_of_cons, IH.
    destruct (String.eqb_spec k k') as [->|Hne].
    + split; [by eauto|by left].
    + split; [intros [?|?]; [congruence|done]|by right].
Qed.

Lemma contains_keys {V} k (d : dict V) : contains k d = true <-> k ∈ keys d.
Proof.
  rewrite elem_of_keys. unfold contains.
  destruct (get k d); split; intros Hx; eauto; try done.
Qed.

Lemma keys_set {V} k (v : V) d :
  keys (set k v d) = if contains k d then keys d else (keys d ++ [k])%list.
Proof.
  unfold keys, contains. induction d as [|[k' v'] r IH]; csimpl; [done|].
  destruct (String.eqb_spec k k') as [->|Hne]; csimpl; [done|].
  rewrite IH. by destruct (get k r).
Qed.

Lemma NoDup_keys_set {V} k (v : V) d : NoDup (keys d) -> NoDup (keys (set k v d)).
Proof.
  intros Hd. rewrite keys_set.
  destruct (contains k d) eqn:E; [done|].
  apply NoDup_app. split_and!; [done| |apply NoDup_singleton].
  intros x Hx ->%list_elem_of_singleton.
  apply contains_keys in Hx. congruence.
Qed.

End PyDictFacts.

(** ** register and the lookups *)

Section RegistryFacts.
Context {A : Type} `{LanguageAnalyzer A} `{StrLower}.
Implicit Types (self : AnalyzerRegistry A) (a b : A) (l : list A).

Lemma map_extensions_lookup language exts (m : gmap string string) e :
  map_extensions language exts m !! e =
  if decide (e ∈ exts) then Some language else m !! e.
Proof.
  unfold map_extensions. revert m.
  induction exts as [|x exts IH]; intros m.
  - destruct (decide (e ∈ [])) as [Hin|_]; [by apply elem_of_nil in Hin|done].
  - simpl foldl. rewrite IH. destruct (decide (e ∈ exts)) as [Hin|Hin].
    + rewrite decide_True by (by right). done.
    + destruct (decide (x = e)) as [->|Hne].
      * rewrite decide_True by (by left). apply lookup_insert_eq.
      * rewrite decide_False by (by intros [?|?]%elem_of_cons).
        by apply lookup_insert_ne.
Qed.

Lemma register_lookup_language self a name :
  get_analyzer_by_language (register self a) name =
  if decide (language_name a = name) then Some a
  else get_analyzer_by_language self name.
Proof. unfold get_analyzer_by_language, register. simpl. apply PyDictFacts.get_set. Qed.

Lemma register_lookup_extension self a e :
  _extension_map (register self a) !! e =
  if decide (e ∈ supported_extensions a) then Some (language_name a)
  else _extension_map self !! e.
Proof. unfold register. simpl. apply map_extensions_lookup. Qed.

Lemma register_all_snoc self l a :
  register_all self (l ++ [a]) = register (register_all self l) a.
Proof. unfold register_all. apply foldl_snoc. Qed.

(** After a sequence of calls, a language name leads to the last analyzer
    registered under it. *)
Lemma register_all_lookup_language self l name :
  get_analyzer_by_language (register_all self l) name =
  match last (filter (fun b => language_name b = name) l) with
  | Some a => Some a
  | None => get_analyzer_by_language self name
  end.
Proof.
  induction l as [|a l IH] using rev_ind; [done|].
  rewrite register_all_snoc, register_lookup_language, filter_app, filter_cons, filter_nil.
  case_decide as Hn.
  - by rewrite last_snoc.
  - by rewrite app_nil_r.
Qed.

(** After a sequence of calls, an extension leads to the language name of
    the last analyzer registered with it. *)
Lemma register_all_lookup_extension self l e :
  _extension_map (register_all self l) !! e =
  match last (filter (fun b => e ∈ supported_extensions b) l) with
  | Some a => Some (language_name a)
  | None => _extension_map self !! e
  end.
Proof.
  induction l as [|a l IH] using rev_ind; [done|].
  rewrite register_all_snoc, register_lookup_extension, filter_app, filter_cons, filter_nil.
  case_decide as Hn.
  - by rewrite last_snoc.
  - by rewrite app_nil_r.
Qed.

(** In a reachable registry, an analyzer is stored under its own language
    name. *)
Lemma reachable_key_is_language_name self name a :
  reachable self ->
  get_analyzer_by_language self name = Some a -> language_name a = name.
Proof.
  intros [l ->]. rewrite register_all_lookup_language.
  destruct (last _) as [x|] eqn:E; [|done].
  intros [= ->]. apply last_Some_elem_of in E.
  by apply list_elem_of_filter in E as [? _].
Qed.

Lemma lookup_file_via_extension self filename language a :
  _extension_map self !! file_ext filename = Some language ->
  language <> "" ->
  get_analyzer_by_language self language = Some a ->
  get_analyzer_for_file self filename = Some a.
Proof.
  unfold get_analyzer_for_file, get_analyzer_by_language.
  intros -> Hne Ha. by rewrite PyStrFacts.truthy_nonempty.
Qed.

Lemma NoDup_fmap_eq {B} (f : A -> B) l a b :
  NoDup (f <$> l) -> a ∈ l -> b ∈ l -> f a = f b -> a = b.
Proof.
  induction l as [|x l IH]; csimpl; [by intros _ ?%elem_of_nil|].
  intros [Hx Hl]%NoDup_cons [->|Ha]%elem_of_cons [->|Hb]%elem_of_cons Hf; auto.
  - destruct Hx. rewrite Hf. by apply list_elem_of_fmap_2.
  - destruct Hx. rewrite <- Hf. by apply list_elem_of_fmap_2.
Qed.

Lemma filter_nothing (P : A -> Prop) `{!forall x, Decision (P x)} l :
  (forall x, x ∈ l -> ~ P x) -> filter P l = [].
Proof.
  induction l as [|x l IH]; intros Hl; [done|].
  rewrite filter_cons_False by (apply Hl; by left).
  apply IH. intros y Hy. apply Hl. by right.
Qed.

End RegistryFacts.

Section RegistryClaims.
Context {A : Type} `{LanguageAnalyzer A} `{StrLower}.
Implicit Types (self : AnalyzerRegistry A) (a b : A) (l : list A).

(** C1, as amended: in the registry built by any sequence of [register]
    calls, every pair (ext, lang) of the extension index has an entry for
    lang in the analyzers map, and ext is among the supported extensions of
    some analyzer that the sequence registered under lang; it is among those
    of the analyzer stored for lang when no language name was registered
    twice. *)
Theorem extension_index_has_owner l (ext lang : string) :
  _extension_map (register_all init l) !! ext = Some lang ->
  (exists a, get_analyzer_by_language (register_all init l) lang = Some a
             /\ (NoDup (language_name <$> l) -> ext ∈ supported_extensions a))
  /\ (exists b, b ∈ l /\ language_name b = lang /\ ext ∈ supported_extensions b).
Proof.
  rewrite register_all_lookup_extension.
  destruct (last (filter _ l)) as [b|] eqn:Eb;
    [|by unfold init; cbn [_extension_map]; rewrite lookup_empty].
  intros [= <-].
  apply last_Some_elem_of, list_elem_of_filter in Eb as [Hext Hb].
  split; [|by exists b].
  rewrite register_all_lookup_language.
  destruct (last (filter (fun x => language_name x = language_name b) l))
    as [a|] eqn:Ea.
  - exists a. split; [done|]. intros Hnd.
    apply last_Some_elem_of, list_elem_of_filter in Ea as [Hname Ha].
    by rewrite (NoDup_fmap_eq language_name l a b Hnd Ha Hb Hname).
  - apply last_None in Ea.
    by destruct (filter_nil_not_elem_of _ _ b Ea).
Qed.

(** C3: right after [register(a)], looking up [a.language_name] returns
    [a]; and when a reachable registry receives [first] and then another
    analyzer [a] of the same language name, no language name leads to
    [first] any more. *)
Theorem register_then_lookup_by_language self a :
  get_analyzer_by_language (register self a) (language_name a) = Some a
  /\ forall first,
       reachable self -> language_name first = language_name a -> first <> a ->
       get_analyzer_by_language (register (register self first) a)
         (language_name a) = Some a
       /\ forall name,
            get_analyzer_by_language (register (register self first) a) name
            <> Some first.
Proof.
  split.
  - rewrite register_lookup_language. by rewrite decide_True.
  - intros first Hreach Hname Hne. split.
    + rewrite register_lookup_language. by rewrite decide_True.
    + intros name. rewrite !register_lookup_language.
      destruct (decide (language_name a = name)) as [_|Hn]; [congruence|].
      rewrite decide_False by congruence.
      intros Hget. apply Hn. rewrite <- Hname.
      by apply (reachable_key_is_language_name self).
Qed.

(** C4, as amended: for an analyzer [a] with a non-empty language name, an
    extension [e] of [a] and a spelling [e'] that is plain (empty, or a dot
    followed by characters other than the dot and the separator) and whose
    lower-casing is [e], right after [register(a)] the file name [x]
    followed by [e'] leads to [a]: this is [e] itself when [e] is plain and
    is its own lower-casing, and every plain upper-case variant of [e]. *)
Theorem lookup_by_filename_after_register self a (e e' : string) :
  e ∈ supported_extensions a ->
  language_name a <> "" ->
  is_plain_extension e' = true ->
  lower e' = e ->
  get_analyzer_for_file (register self a) ("x" +:+ e') = Some a.
Proof.
  intros He Hname Hplain Hlow.
  apply lookup_file_via_extension with (language := language_name a); [|done|].
  - unfold file_ext. rewrite splitext_x_plain by done.
    rewrite Hlow, register_lookup_extension. by rewrite decide_True.
  - rewrite register_lookup_language. by rewrite decide_True.
Qed.

(** C5, as amended: when [a] and [b] both support [e] and the language
    name of [b] is not empty, after [register(a)] and then [register(b)]
    every file name whose extension is [e] leads to [b]. *)
Theorem last_registered_owns_extension self a b (e filename : string) :
  e ∈ supported_extensions a ->
  e ∈ supported_extensions b ->
  file_ext filename = e ->
  language_name b <> "" ->
  get_analyzer_for_file (register (register self a) b) filename = Some b.
Proof.
  intros _ He Hext Hname.
  apply lookup_file_via_extension with (language := language_name b); [|done|].
  - rewrite Hext, register_lookup_extension. by rewrite decide_True.
  - rewrite register_lookup_language. by rewrite decide_True.
Qed.

(** C10, as amended: an extension that is not its own lower-casing (one
    with a letter that [str.lower] changes, as [.RS]) is never the extension
    looked up for a file name, so the entry that [register] stores for it
    answers no lookup: every [get_analyzer_for_file] gives the same result
    with the entry removed. Only strings that are their own lower-casing
    are looked up. *)
Theorem upper_case_extension_unreachable self a (e : string) :
  e ∈ supported_extensions a ->
  lower e <> e ->
  forall filename,
    file_ext filename <> e
    /\ lower (file_ext filename) = file_ext filename
    /\ get_analyzer_for_file
         {| _analyzers := _analyzers (register self a);
            _extension_map := delete e (_extension_map (register self a)) |}
         filename
       = get_analyzer_for_file (register self a) filename.
Proof.
  intros _ Hup filename.
  assert (lower (file_ext filename) = file_ext filename) as Hlow
    by apply lower_idempotent.
  assert (file_ext filename <> e) as Hne by (by intros <-).
  split_and!; [done|done|].
  unfold get_analyzer_for_file. cbn [_analyzers _extension_map].
  by rewrite lookup_delete_ne.
Qed.

End RegistryClaims.

(** ** The claims on sample analyzers *)

Section RegistrySamples.
#[local] Existing Instance ascii_text.

(** The end-to-end scenario: nothing for [main.go] in the empty registry;
    after registering a Go analyzer, [main.go] and [main.GO] both lead to it. *)
Example end_to_end_go :
  get_analyzer_for_file (init : AnalyzerRegistry Plugin) "main.go" = None
  /\ get_analyzer_for_file (register init go_analyzer) "main.go" = Some go_analyzer
  /\ get_analyzer_for_file (register init go_analyzer) "main.GO" = Some go_analyzer.
Proof. by vm_compute. Qed.

Example candidates_of_sample_directory :
  candidates sample_env "plugins" = ["foo.py"; "broken.py"; "foo_rival.py"].
Proof. by vm_compute. Qed.

(** C1, as stated, fails once a language is registered again with fewer
    extensions: [.rlib] still leads to [rust], whose analyzer is now the
    generic one and supports [.rs] only. *)
Lemma stale_extension_after_replacement :
  _extension_map (register_all init [rust_custom; rust_generic]) !! ".rlib"
    = Some "rust"
  /\ ~ exists a,
         get_analyzer_by_language
           (register_all init [rust_custom; rust_generic]) "rust" = Some a
         /\ ".rlib" ∈ supported_extensions a.
Proof.
  split; [by vm_compute|].
  intros [a [Ha Hin]]. vm_compute in Ha. injection Ha as <-.
  cbn in Hin. apply list_elem_of_singleton in Hin. discriminate Hin.
Qed.

Lemma extension_index_has_owner_witness :
  (exists a, get_analyzer_by_language (register_all init [rust_custom]) "rust"
               = Some a
             /\ (NoDup (language_name <$> [rust_custom]) ->
                 ".rlib" ∈ supported_extensions a))
  /\ (exists b, b ∈ [rust_custom] /\ language_name b = "rust"
                /\ ".rlib" ∈ supported_extensions b).
Proof.
  apply (extension_index_has_owner [rust_custom] ".rlib" "rust").
  by vm_compute.
Defined.

Lemma register_then_lookup_by_language_witness :
  get_analyzer_by_language (register (register init rust_custom) rust_generic)
    (language_name rust_generic) = Some rust_generic
  /\ forall name,
       get_analyzer_by_language
         (register (register init rust_custom) rust_generic) name
       <> Some rust_custom.
Proof.
  apply (proj2 (register_then_lookup_by_language init rust_generic) rust_custom).
  - by exists [].
  - reflexivity.
  - discriminate.
Defined.

(** C4, as stated, fails on an extension with two dots: [splitext] keeps
    only the last one. *)
Lemma double_extension_not_found :
  ".tar.gz" ∈ supported_extensions archive_analyzer
  /\ get_analyzer_for_file (register init archive_analyzer) ("x" +:+ ".tar.gz")
     = None
  /\ get_analyzer_for_file (register init archive_analyzer) ("x" +:+ ".tar.gz")
     <> Some archive_analyzer.
Proof.
  assert (get_analyzer_for_file (register init archive_analyzer)
            ("x" +:+ ".tar.gz") = None) as Hnone by (by vm_compute).
  split_and!; [by left|done|by rewrite Hnone].
Qed.

Lemma lookup_by_filename_after_register_witness :
  get_analyzer_for_file (register init rust_custom) ("x" +:+ ".RS")
  = Some rust_custom.
Proof.
  apply (lookup_by_filename_after_register init rust_custom ".rs" ".RS").
  - by left.
  - discriminate.
  - reflexivity.
  - reflexivity.
Defined.

(** C5, as stated, fails when the later analyzer has an empty language
    name: the lookup takes the empty name for an absent one. *)
Lemma nameless_owner_not_found :
  ".foo" ∈ supported_extensions foo_analyzer
  /\ ".foo" ∈ supported_extensions nameless_analyzer
  /\ file_ext "x.foo" = ".foo"
  /\ get_analyzer_for_file
       (register (register init foo_analyzer) nameless_analyzer) "x.foo"
     <> Some nameless_analyzer.
Proof.
  split_and!; [by left|by left|reflexivity|].
  assert (get_analyzer_for_file
            (register (register init foo_analyzer) nameless_analyzer) "x.foo"
          = None) as -> by (by vm_compute).
  discriminate.
Qed.

Lemma last_registered_owns_extension_witness :
  get_analyzer_for_file (register (register init foo_analyzer) foo_second)
    "src/x.FOO" = Some foo_second.
Proof.
  apply (last_registered_owns_extension init foo_analyzer foo_second ".foo").
  - by left.
  - by left.
  - reflexivity.
  - discriminate.
Defined.

(** C10, as stated, fails for an upper-case letter that [str.lower] leaves
    as it is: U+03D2, the Greek upsilon with hook, is such a letter, and a
    file with the extension registered in that letter finds its analyzer. *)
Lemma unchanged_upper_case_letter_is_found :
  ".ϒ" ∈ supported_extensions hook_analyzer
  /\ lower ".ϒ" = ".ϒ"
  /\ file_ext "x.ϒ" = ".ϒ"
  /\ get_analyzer_for_file (register init hook_analyzer) "x.ϒ"
     = Some hook_analyzer.
Proof. split_and!; [by left|reflexivity|reflexivity|by vm_compute]. Qed.

Lemma upper_case_extension_unreachable_witness :
  file_ext "FILE.RS" <> ".RS"
  /\ lower (file_ext "FILE.RS") = file_ext "FILE.RS"
  /\ get_analyzer_for_file
       {| _analyzers := _analyzers (register init shouting_analyzer);
          _extension_map :=
            delete ".RS" (_extension_map (register init shouting_analyzer)) |}
       "FILE.RS"
     = get_analyzer_for_file (register init shouting_analyzer) "FILE.RS".
Proof.
  apply (upper_case_extension_unreachable init shouting_analyzer ".RS").
  - by left.
  - discriminate.
Defined.

End RegistrySamples.

(** ** list_analyzers *)

Section ListAnalyzers.
Context {A : Type} `{LanguageAnalyzer A}.
Implicit Types (self : AnalyzerRegistry A) (a b : A).

Lemma list_analyzers_step_get result a c :
  PyDict.get c (list_analyzers_step result a) =
  if decide (class_name a = c)
  then Some (default [] (PyDict.get c result) ++ supported_extensions a)%list
  else PyDict.get c result.
Proof.
  unfold list_analyzers_step, class_name, PyDict.contains.
  rewrite PyDictFacts.get_set. case_decide as Hc.
  - subst c. destruct (PyDict.get _ result) eqn:E; simpl; [by rewrite E|].
    by rewrite PyDictFacts.get_set_eq.
  - destruct (PyDict.get (__name__ (type_of a)) result); simpl; [done|].
    by rewrite PyDictFacts.get_set_ne.
Qed.

Lemma list_analyzers_step_NoDup result a :
  NoDup (PyDict.keys result) -> NoDup (PyDict.keys (list_analyzers_step result a)).
Proof.
  intros Hr. unfold list_analyzers_step.
  apply PyDictFacts.NoDup_keys_set.
  destruct (negb _); [by apply PyDictFacts.NoDup_keys_set|done].
Qed.

Lemma list_analyzers_fold_NoDup result (vs : list A) :
  NoDup (PyDict.keys result) ->
  NoDup (PyDict.keys (foldl list_analyzers_step result vs)).
Proof.
  revert result. induction vs as [|a vs IH]; intros result Hr; simpl; [done|].
  by apply IH, list_analyzers_step_NoDup.
Qed.

Lemma list_analyzers_fold_get result (vs : list A) c :
  PyDict.get c (foldl list_analyzers_step result vs) =
  match filter (fun a => class_name a = c) vs with
  | [] => PyDict.get c result
  | group =>
      Some (default [] (PyDict.get c result)
            ++ concat (supported_extensions <$> group))%list
  end.
Proof.
  revert result. induction vs as [|a vs IH]; intros result; simpl; [done|].
  rewrite IH, list_analyzers_step_get, filter_cons.
  destruct (decide (class_name a = c)) as [Hc|Hc]; [|done].
  destruct (filter _ vs) as [|x group]; csimpl.
  - by rewrite app_nil_r.
  - by rewrite <- !app_assoc.
Qed.

(** C6, as amended: [list_analyzers] has one entry per distinct class
    name (the [__name__] of the type) among the registered analyzers; the
    entry of a name lists the supported extensions of the registered
    analyzers whose class has that name, analyzer after analyzer in the
    order of the analyzers map; two analyzers of one type registered under
    different language names share one entry, with the extensions of the
    first followed by those of the second. *)
Theorem list_analyzers_groups_by_class_name self :
  NoDup (PyDict.keys (list_analyzers self))
  /\ (forall c,
        PyDict.get c (list_analyzers self) =
        match filter (fun a => class_name a = c) (PyDict.values (_analyzers self)) with
        | [] => None
        | group => Some (concat (supported_extensions <$> group))
        end)
  /\ length (list_analyzers self)
     = length (remove_dups (class_name <$> PyDict.values (_analyzers self)))
  /\ (forall a b,
        language_name a <> language_name b -> type_of a = type_of b ->
        list_analyzers (register (register init a) b)
        = [(class_name a, (supported_extensions a ++ supported_extensions b)%list)]).
Proof.
  assert (forall c,
    PyDict.get c (list_analyzers self) =
    match filter (fun a => class_name a = c) (PyDict.values (_analyzers self)) with
    | [] => None
    | group => Some (concat (supported_extensions <$> group))
    end) as Hget.
  { intros c. unfold list_analyzers. rewrite list_analyzers_fold_get.
    by destruct (filter _ _). }
  assert (NoDup (PyDict.keys (list_analyzers self))) as Hnd.
  { apply list_analyzers_fold_NoDup. constructor. }
  split_and!; [done|done| |].
  - rewrite <- (length_fmap fst (list_analyzers self)).
    apply Permutation_length, NoDup_Permutation;
      [done|apply NoDup_remove_dups|].
    intros c. fold (PyDict.keys (list_analyzers self)).
    rewrite PyDictFacts.elem_of_keys, Hget, elem_of_remove_dups, list_elem_of_fmap.
    destruct (filter _ _) as [|x group] eqn:E.
    + split; [by intros [? ?]|]. intros (a & -> & Ha).
      by destruct (filter_nil_not_elem_of _ _ a E).
    + split; [|by eauto]. intros _.
      assert (x ∈ filter (fun a => class_name a = c) (PyDict.values (_analyzers self)))
        as [Hx ?]%list_elem_of_filter by (rewrite E; by left).
      by exists x.
  - intros a b Hname Htype.
    assert (class_name b = class_name a) as Hclass
      by (unfold class_name; by rewrite Htype).
    unfold list_analyzers, register, init. simpl.
    destruct (String.eqb_spec (language_name b) (language_name a)); [congruence|].
    simpl. unfold list_analyzers_step, PyDict.contains. rewrite Hclass. simpl.
    rewrite !String.eqb_refl. simpl. rewrite ?String.eqb_refl. simpl.
    by rewrite ?String.eqb_refl.
Qed.

End ListAnalyzers.

(** C6, as stated, fails when two distinct classes carry the same name:
    the two types get one entry between them. *)
Lemma same_named_classes_share_an_entry :
  type_of go_analyzer <> type_of ruby_analyzer
  /\ list_analyzers (register (register init go_analyzer) ruby_analyzer)
     = [("Analyzer", [".go"; ".rb"])]
  /\ length (list_analyzers (register (register init go_analyzer) ruby_analyzer))
     <> length (remove_dups
                  (type_of <$> PyDict.values
                     (_analyzers (register (register init go_analyzer) ruby_analyzer)))).
Proof. split_and!; [discriminate|reflexivity|by vm_compute]. Qed.

Lemma list_analyzers_groups_by_class_name_witness :
  list_analyzers (register (register init rust_generic)
                    (sample_DefaultAnalyzer [".go"] "go"))
  = [("DefaultAnalyzer", [".rs"; ".go"])].
Proof.
  refine (proj2 (proj2 (proj2
    (list_analyzers_groups_by_class_name (A := Plugin) init)))
    rust_generic (sample_DefaultAnalyzer [".go"] "go") _ _).
  - discriminate.
  - reflexivity.
Defined.

(** ** register_defaults *)

Section Defaults.
Context {A : Type} `{LanguageAnalyzer A}.
Variable DefaultAnalyzer : list string -> string -> A.

Lemma register_default_step_frame (_registry : AnalyzerRegistry A) analyzer language :
  language ∈ skip_languages ->
  get_analyzer_by_language (register_default_step _registry analyzer) language
  = get_analyzer_by_language _registry language.
Proof.
  intros Hskip. unfold register_default_step, register_analyzer.
  case_bool_decide as Hn; [|done].
  rewrite register_lookup_language.
  by rewrite decide_False by (by intros <-).
Qed.

Lemma register_default_steps_frame (ds : list A) (_registry : AnalyzerRegistry A) language :
  language ∈ skip_languages ->
  get_analyzer_by_language (foldl register_default_step _registry ds) language
  = get_analyzer_by_language _registry language.
Proof.
  intros Hskip. revert _registry.
  induction ds as [|d ds IH]; intros _registry; simpl; [done|].
  by rewrite IH, register_default_step_frame.
Qed.

(** C9: an analyzer registered under [python], [typescript],
    [javascript] or [java] is still what the language name leads to after
    [register_defaults], whatever [DefaultAnalyzer] builds: a default with
    one of these names is skipped. *)
Theorem register_defaults_keeps_custom (_registry : AnalyzerRegistry A)
    (language : string) (custom : A) :
  language ∈ skip_languages ->
  get_analyzer_by_language _registry language = Some custom ->
  get_analyzer_by_language (register_defaults DefaultAnalyzer _registry) language
  = Some custom.
Proof.
  intros Hskip <-. unfold register_defaults.
  by apply register_default_steps_frame.
Qed.

End Defaults.

Lemma skip_languages_members language :
  language ∈ skip_languages <->
  language = "typescript" \/ language = "javascript"
  \/ language = "python" \/ language = "java".
Proof.
  unfold skip_languages. rewrite !elem_of_union, !elem_of_singleton. tauto.
Qed.

Lemma register_defaults_keeps_custom_witness :
  get_analyzer_by_language
    (register_defaults sample_DefaultAnalyzer (register init python_custom))
    "python"
  = Some python_custom.
Proof.
  apply (register_defaults_keeps_custom sample_DefaultAnalyzer
           (register init python_custom) "python" python_custom).
  - apply skip_languages_members. auto.
  - reflexivity.
Defined.

(** ** auto_discover *)

Section DiscoveryFacts.
Context {A : Type} `{LanguageAnalyzer A}.
Variable env : Env A.
Implicit Types (w : World A) (l : list A).

Lemma world_log_nil w : {| registry := registry w; log := log w ++ [] |} = w.
Proof. destruct w. simpl. by rewrite app_nil_r. Qed.

Lemma register_all_app (self : AnalyzerRegistry A) l1 l2 :
  register_all self (l1 ++ l2) = register_all (register_all self l1) l2.
Proof. unfold register_all. apply foldl_app. Qed.

(** The loop over a module registers the instances up to the first class
    that fails, and raises what that class raised. *)
Lemma module_loop_spec module_name (module : PyModule A) w :
  exists extra,
    for_each module (register_plugin_class module_name) w =
    ({| registry := register_all (registry w) (instances module);
        log := log w ++ extra |},
     match instantiation_failure module with
     | Some e => Raised e
     | None => Returned tt
     end).
Proof.
  revert w. induction module as [|[attr_name attr] r IH]; intros w.
  - exists []. simpl. unfold mret, M_ret. by rewrite world_log_nil.
  - simpl for_each. unfold mbind, M_bind. simpl register_plugin_class.
    simpl instances. simpl instantiation_failure.
    change (isinstance_type attr && issubclass_LanguageAnalyzer attr
            && negb (is_LanguageAnalyzer attr)) with (is_plugin_class attr).
    destruct (is_plugin_class attr).
    + unfold mbind, M_bind, lift. destruct (call attr) as [a|e].
      * unfold call_register, emit. simpl.
        destruct (IH {| registry := register (registry w) a;
                        log := (log w ++ register_log (registry w) a)
                               ++ [DebugRegistered attr_name module_name] |})
          as [extra ->].
        exists (register_log (registry w) a
                ++ [DebugRegistered attr_name module_name] ++ extra)%list.
        simpl. by rewrite <- !app_assoc.
      * exists []. simpl. by rewrite world_log_nil.
    + unfold mret, M_ret. apply IH.
Qed.

Lemma load_plugin_spec module_name w :
  exists extra,
    load_plugin env module_name w =
    ({| registry :=
          register_all (registry w)
            match import_module env module_name with
            | Returned module => instances module
            | Raised _ => []
            end;
        log := log w ++ extra |},
     match import_module env module_name with
     | Raised e => Raised e
     | Returned module =>
         match instantiation_failure module with
         | Some e => Raised e
         | None => Returned tt
         end
     end).
Proof.
  unfold load_plugin, mbind, M_bind, lift.
  destruct (import_module env module_name) as [module|e].
  - apply module_loop_spec.
  - exists []. simpl. by rewrite world_log_nil.
Qed.

(** One file of the scan: the handler catches an [Exception] and leaves
    an error record; any other exception goes on. *)
Lemma discover_file_spec py_file w :
  exists extra,
    discover_file env py_file w =
    ({| registry :=
          if PyStr.startswith "__" py_file then registry w
          else register_all (registry w) (imported_instances env py_file);
        log := log w ++ extra |},
     if PyStr.startswith "__" py_file then Returned tt
     else after_handler (imported_failure env py_file))
    /\ (PyStr.startswith "__" py_file = false ->
        forall e, imported_failure env py_file = Some e ->
                  isinstance_Exception e = true ->
                  ErrorFailedToLoad (module_name_of py_file) e ∈ extra).
Proof.
  unfold discover_file, imported_instances, imported_failure, after_handler.
  destruct (PyStr.startswith "__" py_file).
  - exists []. split; [|done]. unfold mret, M_ret. by rewrite world_log_nil.
  - unfold try_except.
    destruct (load_plugin_spec (module_name_of py_file) w) as [extra ->].
    assert (forall e,
      exists extra',
        (if isinstance_Exception e
         then emit (ErrorFailedToLoad (module_name_of py_file) e)
                {| registry := register_all (registry w)
                     match import_module env (module_name_of py_file) with
                     | Returned module => instances module
                     | Raised _ => []
                     end;
                   log := log w ++ extra |}
         else ({| registry := register_all (registry w)
                     match import_module env (module_name_of py_file) with
                     | Returned module => instances module
                     | Raised _ => []
                     end;
                  log := log w ++ extra |}, Raised e))
        = ({| registry := register_all (registry w)
                match import_module env (module_name_of py_file) with
                | Returned module => instances module
                | Raised _ => []
                end;
              log := log w ++ extra' |},
           if isinstance_Exception e then Returned tt else Raised e)
        /\ (isinstance_Exception e = true ->
            ErrorFailedToLoad (module_name_of py_file) e ∈ extra')) as Hcatch.
    { intros e. destruct (isinstance_Exception e).
      - exists (extra ++ [ErrorFailedToLoad (module_name_of py_file) e])%list.
        unfold emit. simpl. rewrite app_assoc. split; [done|].
        intros _. apply elem_of_app. right. by left.
      - exists extra. by split. }
    destruct (import_module env (module_name_of py_file)) as [module|e].
    + destruct (instantiation_failure module) as [e|].
      * destruct (Hcatch e) as (extra' & -> & Hin). exists extra'.
        split; [done|]. intros _ e' [= <-]. apply Hin.
      * exists extra. split; [done|]. by intros _ e' ?.
    + destruct (Hcatch e) as (extra' & -> & Hin). exists extra'.
      split; [done|]. intros _ e' [= <-]. apply Hin.
Qed.


(** Whatever the files do, the loop only registers and only logs. *)
Lemma scan_extends (files : list string) w :
  exists l extra,
    fst (for_each files (discover_file env) w)
    = {| registry := register_all (registry w) l; log := log w ++ extra |}.
Proof.
  revert w. induction files as [|f files IH]; intros w.
  - exists [], []. simpl. by rewrite world_log_nil.
  - simpl for_each. unfold mbind, M_bind.
    destruct (discover_file_spec f w) as (extra1 & -> & _).
    set (l1 := if PyStr.startswith "__" f then [] else imported_instances env f).
    assert ((if PyStr.startswith "__" f then registry w
             else register_all (registry w) (imported_instances env f))
            = register_all (registry w) l1) as ->
      by (unfold l1; by destruct (PyStr.startswith "__" f)).
    destruct (if PyStr.startswith "__" f then Returned tt
              else after_handler (imported_failure env f)) as [[]|e].
    + match goal with |- context [for_each files _ ?w1] =>
        destruct (IH w1) as (l2 & extra2 & ->) end.
      exists (l1 ++ l2)%list, (extra1 ++ extra2)%list.
      cbn [registry log]. by rewrite register_all_app, app_assoc.
    + by exists l1, extra1.
Qed.

End DiscoveryFacts.

Section DiscoveryClaims.
Context {A : Type} `{LanguageAnalyzer A}.
Variable env : Env A.
Implicit Types (w : World A) (path : option string).


(** C8, as amended: when the path names nothing, or names a file that is
    no directory, [auto_discover] returns without raising and the registry,
    analyzers map and extension index, is what it was; when looking at the
    path itself fails (a name too long, a directory that may not be
    searched), that error leaves [auto_discover], the registry still what it
    was. *)
Theorem auto_discover_without_directory path w :
  (forall names, fs env (directory_of env path) <> Directory names) ->
  registry (fst (auto_discover env path w)) = registry w
  /\ snd (auto_discover env path w)
     = match fs env (directory_of env path) with
       | StatError e => Raised e
       | _ => Returned tt
       end.
Proof.
  intros Hdir.
  unfold auto_discover, path_exists, glob, mbind, M_bind, lift.
  destruct (fs env (directory_of env path)) as [| |names|e]; cbn [negb]; try done.
  by destruct (Hdir names).
Qed.




End DiscoveryClaims.


(** The scan of a directory outside the plugin package: the module asked
    for is [codesitter.analyzers.languages.ext], which the package does not
    have, and the plugin file of the directory, which loads, is not
    registered. *)
Example plugin_outside_package_is_not_loaded :
  file_failure outside_env "/opt/plugins" "ext.py" = None
  /\ go_analyzer ∈ file_instances outside_env "/opt/plugins" "ext.py"
  /\ auto_discover outside_env (Some "/opt/plugins") empty_world
     = ({| registry := init;
           log := [ErrorFailedToLoad "codesitter.analyzers.languages.ext"
                     (Exception "No module named codesitter.analyzers.languages.ext")] |},
        Returned tt).
Proof. split_and!; [reflexivity|vm_compute; by left|reflexivity]. Qed.


(** C8, as stated, fails for a path whose name is too long to be looked
    at: it names no directory, and [Path.exists] raises, outside the
    handler. *)
Lemma unreadable_path_raises :
  (forall names, fs long_name_env long_name <> Directory names)
  /\ snd (auto_discover long_name_env (Some long_name) empty_world)
     = Raised (Exception "[Errno 36] File name too long")
  /\ snd (auto_discover long_name_env (Some long_name) empty_world) <> Returned tt.
Proof.
  assert (snd (auto_discover long_name_env (Some long_name) empty_world)
          = Raised (Exception "[Errno 36] File name too long")) as Hraise
    by (by vm_compute).
  split_and!; [|done|by rewrite Hraise].
  intros names. by vm_compute.
Qed.

Lemma auto_discover_without_directory_witness :
  registry (fst (auto_discover sample_env None empty_world)) = registry empty_world
  /\ snd (auto_discover sample_env None empty_world) = Returned tt.
Proof.
  refine (auto_discover_without_directory sample_env None empty_world _).
  intros names. discriminate.
Defined.

(** * Further properties of the code *)

(** ** More on strings and splitext *)

Module PyStrMore.
Import PyStr PyStrFacts.

Lemma append_cons a s t : String a s +:+ t = String a (s +:+ t).
Proof. reflexivity. Qed.

Lemma take_drop n s : take n s +:+ drop n s = s.
Proof.
  revert s. induction n as [|n IH]; intros [|a r]; simpl; try done.
  by rewrite append_cons, IH.
Qed.

Lemma append_empty_r s : s +:+ "" = s.
Proof. induction s as [|a r IH]; [done|]. by rewrite append_cons, IH. Qed.

Lemma rfind_none_absent c s :
  rfind c s = -1 -> existsb (fun a => Ascii.eqb a c) s = false.
Proof.
  induction s as [|a r IH]; simpl; [done|].
  pose proof (rfind_lower_bound c r).
  destruct (Z.leb_spec 0 (rfind c r)); [lia|].
  destruct (Ascii.eqb a c); [lia|]. intros _. apply IH. lia.
Qed.

(** The suffix at the last occurrence starts with the character, which
    does not occur after it. *)
Lemma drop_rfind c s :
  0 <= rfind c s ->
  exists r, drop (Z.to_nat (rfind c s)) s = String c r
            /\ existsb (fun a => Ascii.eqb a c) r = false.
Proof.
  induction s as [|a r IH]; simpl; [lia|].
  pose proof (rfind_lower_bound c r).
  destruct (Z.leb_spec 0 (rfind c r)) as [Hr|Hr].
  - intros _. destruct (IH Hr) as (r' & Hd & Hr').
    exists r'. split; [|done].
    replace (Z.to_nat (rfind c r + 1)) with (S (Z.to_nat (rfind c r))) by lia.
    done.
  - destruct (Ascii.eqb_spec a c) as [->|]; [|lia].
    intros _. exists r. split; [done|]. apply rfind_none_absent. lia.
Qed.

Lemma existsb_or f g s :
  existsb f s = false -> existsb g s = false ->
  existsb (fun c => f c || g c) s = false.
Proof.
  induction s as [|a r IH]; simpl; [done|].
  intros [-> ?]%orb_false_iff [-> ?]%orb_false_iff. simpl. by apply IH.
Qed.

End PyStrMore.

Section FileExtMore.
Import PyStr PyStrFacts PyStrMore OsPath OsPathFacts.
Context `{StrLower}.

Lemma name_before_last_dot_lt p :
  name_before_last_dot (Spec.final_segment p) = true ->
  rfind sep p < rfind extsep p.
Proof.
  unfold name_before_last_dot. rewrite final_segment_rfind_dot.
  destruct (Z.ltb_spec (rfind sep p) (rfind extsep p)); [done|].
  simpl. discriminate.
Qed.

(** The second component of [splitext] is read off the final segment. *)
Lemma splitext_snd_segment p :
  snd (splitext p) =
  if name_before_last_dot (Spec.final_segment p)
  then slice_from (Spec.final_segment p) (rfind extsep (Spec.final_segment p))
  else "".
Proof.
  rewrite splitext_snd.
  destruct (name_before_last_dot (Spec.final_segment p)) eqn:E; [|done].
  apply name_before_last_dot_lt in E.
  pose proof (rfind_lower_bound sep p).
  change extsep with "."%char at 2. rewrite final_segment_rfind_dot.
  destruct (Z.ltb_spec (rfind sep p) (rfind extsep p)); [|lia].
  unfold Spec.final_segment, slice_from. change "/"%char with sep.
  rewrite drop_drop. f_equal. lia.
Qed.

Lemma final_segment_no_sep p : rfind sep (Spec.final_segment p) = -1.
Proof.
  unfold Spec.final_segment, slice_from. change "/"%char with sep.
  rewrite rfind_drop. pose proof (rfind_lower_bound sep p).
  destruct (Z.leb_spec (Z.of_nat (Z.to_nat (rfind sep p + 1))) (rfind sep p)); lia.
Qed.

Lemma final_segment_idemp p :
  Spec.final_segment (Spec.final_segment p) = Spec.final_segment p.
Proof.
  unfold Spec.final_segment at 1. change "/"%char with sep.
  by rewrite final_segment_no_sep.
Qed.

Lemma file_ext_final_segment p : file_ext (Spec.final_segment p) = file_ext p.
Proof.
  unfold file_ext. f_equal.
  by rewrite (splitext_snd_segment p), (splitext_snd_segment (Spec.final_segment p)),
    final_segment_idemp.
Qed.

Lemma rfind_app c s1 s2 :
  rfind c (s1 +:+ s2) =
  if 0 <=? rfind c s2 then len s1 + rfind c s2 else rfind c s1.
Proof.
  unfold len. induction s1 as [|a s1 IH].
  - change ("" +:+ s2) with s2. simpl. pose proof (rfind_lower_bound c s2).
    destruct (Z.leb_spec 0 (rfind c s2)); lia.
  - rewrite append_cons. simpl rfind. rewrite IH.
    pose proof (rfind_lower_bound c s1).
    destruct (Z.leb_spec 0 (rfind c s2)).
    + destruct (Z.leb_spec 0 (Z.of_nat (String.length s1) + rfind c s2));
        simpl String.length; lia.
    + done.
Qed.

Lemma drop_app_length s1 s2 : drop (String.length s1) (s1 +:+ s2) = s2.
Proof. induction s1 as [|a s1 IH]; [done|]. by rewrite append_cons. Qed.

Lemma final_segment_join dir name :
  existsb (fun a => Ascii.eqb a sep) name = false ->
  Spec.final_segment (dir +:+ String sep name) = name.
Proof.
  intros Hname. unfold Spec.final_segment, slice_from. change "/"%char with sep.
  assert (rfind sep (String sep name) = 0) as H0.
  { cbn [rfind]. rewrite (rfind_absent _ _ Hname). reflexivity. }
  rewrite rfind_app, H0. change (0 <=? 0) with true. cbv iota. unfold len.
  replace (Z.to_nat (Z.of_nat (String.length dir) + 0 + 1))
    with (String.length dir + 1)%nat by lia.
  by rewrite <- drop_drop, drop_app_length.
Qed.

End FileExtMore.

(** X1: the two components that [splitext] returns, joined, give the
    path back. *)
Theorem splitext_joins_back (p : string) :
  fst (OsPath.splitext p) +:+ snd (OsPath.splitext p) = p.
Proof.
  unfold OsPath.splitext.
  destruct (_ && _); cbn [fst snd].
  - apply PyStrMore.take_drop.
  - apply PyStrMore.append_empty_r.
Qed.

(** X2: the extension that [splitext] finds in a file name, which
    [get_analyzer_for_file] then lower-cases, is always plain: empty, or one
    dot followed by characters that are neither a dot nor a separator. *)
Theorem splitext_extension_is_plain (filename : string) :
  is_plain_extension (snd (OsPath.splitext filename)) = true.
Proof.
  rewrite splitext_snd.
  destruct (name_before_last_dot _) eqn:E; [|done].
  apply name_before_last_dot_lt in E.
  pose proof (PyStrFacts.rfind_lower_bound OsPath.sep filename) as Hs.
  destruct (PyStrMore.drop_rfind OsPath.extsep filename) as (r & Hd & Hr); [lia|].
  unfold PyStr.slice_from. rewrite Hd. simpl.
  apply negb_true_iff, PyStrMore.existsb_or; [done|].
  apply PyStrMore.rfind_none_absent.
  replace r with (PyStr.drop (Z.to_nat (PyStr.rfind OsPath.extsep filename) + 1) filename)
    by (by rewrite <- PyStrFacts.drop_drop, Hd).
  rewrite PyStrFacts.rfind_drop.
  destruct (Z.leb_spec
    (Z.of_nat (Z.to_nat (PyStr.rfind OsPath.extsep filename) + 1))
    (PyStr.rfind "/"%char filename)) as [Hle|]; [|done].
  change "/"%char with OsPath.sep in Hle. lia.
Qed.

(** ** More on register and the lookups *)

Section RegistryMore.
Context {A : Type} `{LanguageAnalyzer A} `{StrLower}.
Implicit Types (self : AnalyzerRegistry A) (a b : A) (l : list A).

Lemma set_set {V} k (v : V) d : PyDict.set k v (PyDict.set k v d) = PyDict.set k v d.
Proof.
  induction d as [|[k' v'] r IH]; simpl.
  - by rewrite String.eqb_refl.
  - destruct (String.eqb_spec k k') as [->|Hne]; simpl.
    + by rewrite String.eqb_refl.
    + destruct (String.eqb_spec k k'); [done|]. by rewrite IH.
Qed.

Lemma Forall_set {V} (P : string * V -> Prop) k (v : V) d :
  Forall P d -> P (k, v) -> Forall P (PyDict.set k v d).
Proof.
  intros Hd Hk. induction Hd as [|[k' v'] r Hx Hr IH]; simpl.
  - by constructor.
  - destruct (String.eqb k k'); by constructor.
Qed.

Lemma register_all_keeps_language self l name :
  is_Some (get_analyzer_by_language self name) ->
  is_Some (get_analyzer_by_language (register_all self l) name).
Proof.
  intros Hs. rewrite register_all_lookup_language. by destruct (last _).
Qed.

Lemma register_all_keeps_extension self l e :
  is_Some (_extension_map self !! e) ->
  is_Some (_extension_map (register_all self l) !! e).
Proof.
  intros Hs. rewrite register_all_lookup_extension. by destruct (last _).
Qed.

(** X3: the analyzer for a path is the analyzer for its last component:
    the directories of a path play no part in the lookup. *)
Theorem lookup_ignores_directories self (dir name : string) :
  PyStr.existsb (fun c => Ascii.eqb c "/"%char) name = false ->
  get_analyzer_for_file self (dir +:+ String "/"%char name)
  = get_analyzer_for_file self name.
Proof.
  intros Hname. unfold get_analyzer_for_file.
  rewrite <- (file_ext_final_segment (dir +:+ String "/"%char name)).
  pose proof (final_segment_join dir name Hname) as Hseg.
  change OsPath.sep with "/"%char in Hseg. by rewrite Hseg.
Qed.

(** X5: a file name without extension (no dot in its last component, or
    only dots before the last one) finds no analyzer in a registry built
    from analyzers none of which lists the empty extension. *)
Theorem lookup_without_extension l (filename : string) :
  name_before_last_dot (Spec.final_segment filename) = false ->
  (forall a, a ∈ l -> "" ∉ supported_extensions a) ->
  get_analyzer_for_file (register_all init l) filename = None.
Proof.
  intros Hno Hl. unfold get_analyzer_for_file, file_ext.
  rewrite splitext_snd, Hno, lower_empty.
  rewrite register_all_lookup_extension.
  destruct (last _) as [b|] eqn:Eb.
  - apply last_Some_elem_of, list_elem_of_filter in Eb as [Hin Hb].
    by destruct (Hl b Hb).
  - unfold init. cbn [_extension_map]. by rewrite lookup_empty.
Qed.

(** X6: registering the same analyzer twice in a row is registering it
    once. *)
Theorem register_twice self a :
  register (register self a) a = register self a.
Proof.
  unfold register. cbn [_analyzers _extension_map]. f_equal.
  - apply set_set.
  - apply map_eq. intros e. rewrite !map_extensions_lookup.
    by case_decide.
Qed.

(** X7: registrations only add: a language name that leads to an analyzer
    and an extension that is in the index are still there after any further
    sequence of [register] calls. *)
Theorem register_never_removes self l (name e : string) :
  (is_Some (get_analyzer_by_language self name) ->
   is_Some (get_analyzer_by_language (register_all self l) name))
  /\ (is_Some (list_supported_extensions self !! e) ->
      is_Some (list_supported_extensions (register_all self l) !! e)).
Proof.
  split; [apply register_all_keeps_language|apply register_all_keeps_extension].
Qed.

(** X8: after [register(a)], every file whose extension the index
    already gave to the language name of [a] leads to [a], whether [a]
    supports that extension or not. *)
Theorem replaced_analyzer_inherits_extensions self a (filename : string) :
  _extension_map self !! file_ext filename = Some (language_name a) ->
  language_name a <> "" ->
  get_analyzer_for_file (register self a) filename = Some a.
Proof.
  intros Hext Hname.
  apply lookup_file_via_extension with (language := language_name a); [|done|].
  - rewrite register_lookup_extension. by case_decide.
  - rewrite register_lookup_language. by rewrite decide_True.
Qed.

(** X9: what [get_analyzer_for_file] returns in a registry built by
    [register] calls was registered, has a non-empty language name, and
    some registered analyzer of that language name supports the extension
    of the file. *)
Theorem lookup_returns_registered l (filename : string) a :
  get_analyzer_for_file (register_all init l) filename = Some a ->
  a ∈ l
  /\ language_name a <> ""
  /\ exists b, b ∈ l /\ language_name b = language_name a
               /\ file_ext filename ∈ supported_extensions b.
Proof.
  unfold get_analyzer_for_file.
  rewrite register_all_lookup_extension.
  destruct (last (filter _ l)) as [b|] eqn:Eb;
    [|by unfold init; cbn [_extension_map]; rewrite lookup_empty].
  apply last_Some_elem_of, list_elem_of_filter in Eb as [Hext Hb].
  destruct (PyStr.truthy (language_name b)) eqn:Et; [|done].
  fold (get_analyzer_by_language (register_all init l) (language_name b)).
  rewrite register_all_lookup_language.
  destruct (last (filter _ l)) as [x|] eqn:Ex; [|done].
  intros [= ->].
  apply last_Some_elem_of, list_elem_of_filter in Ex as [Hname Ha].
  split_and!; [done| |by exists b].
  intros Hempty. rewrite <- Hname, Hempty in Et. discriminate Et.
Qed.

(** X10: two analyzers with different language names and no extension in
    common can be registered in either order: the extension index and
    every lookup are the same. *)
Theorem register_commutes self a b :
  language_name a <> language_name b ->
  (forall e, e ∈ supported_extensions a -> e ∉ supported_extensions b) ->
  list_supported_extensions (register (register self a) b)
  = list_supported_extensions (register (register self b) a)
  /\ (forall name,
        get_analyzer_by_language (register (register self a) b) name
        = get_analyzer_by_language (register (register self b) a) name)
  /\ (forall filename,
        get_analyzer_for_file (register (register self a) b) filename
        = get_analyzer_for_file (register (register self b) a) filename).
Proof.
  intros Hname Hdisj.
  assert (_extension_map (register (register self a) b)
          = _extension_map (register (register self b) a)) as Hmap.
  { apply map_eq. intros e. rewrite !register_lookup_extension.
    destruct (decide (e ∈ supported_extensions b)) as [Hb|Hb];
      destruct (decide (e ∈ supported_extensions a)) as [Ha|Ha]; try done.
    by destruct (Hdisj e Ha). }
  assert (forall name,
    get_analyzer_by_language (register (register self a) b) name
    = get_analyzer_by_language (register (register self b) a) name) as Hlang.
  { intros name. rewrite !register_lookup_language.
    destruct (decide (language_name b = name)) as [Hb|Hb];
      destruct (decide (language_name a = name)) as [Ha|Ha]; try done.
    congruence. }
  split_and!; [done|done|].
  intros filename. unfold get_analyzer_for_file. rewrite Hmap.
  destruct (_ !! _) as [language|]; [|done].
  destruct (PyStr.truthy language); [|done]. apply Hlang.
Qed.

(** X11: in a registry built by [register] calls the keys of the
    analyzers map are distinct, every analyzer is stored under its own
    language name, and there is one entry per distinct language name
    registered. *)
Theorem analyzers_map_invariant l :
  NoDup (PyDict.keys (_analyzers (register_all init l)))
  /\ Forall (fun entry => language_name entry.2 = entry.1)
       (_analyzers (register_all init l))
  /\ length (_analyzers (register_all init l))
     = length (remove_dups (language_name <$> l)).
Proof.
  assert (NoDup (PyDict.keys (_analyzers (register_all init l)))) as Hnd.
  { induction l as [|a l IH] using rev_ind; [constructor|].
    rewrite register_all_snoc. by apply PyDictFacts.NoDup_keys_set. }
  split_and!; [done| |].
  - induction l as [|a l IH] using rev_ind; [constructor|].
    rewrite register_all_snoc. apply Forall_set; [|done].
    apply IH. clear IH Hnd.
    induction l as [|x l IH] using rev_ind; [constructor|].
    rewrite register_all_snoc. by apply PyDictFacts.NoDup_keys_set.
  - rewrite <- (length_fmap fst (_analyzers (register_all init l))).
    apply Permutation_length, NoDup_Permutation; [done|apply NoDup_remove_dups|].
    intros k. fold (PyDict.keys (_analyzers (register_all init l))).
    rewrite PyDictFacts.elem_of_keys, elem_of_remove_dups, list_elem_of_fmap.
    fold (get_analyzer_by_language (register_all init l) k).
    rewrite register_all_lookup_language.
    destruct (last (filter _ l)) as [x|] eqn:Ex.
    + apply last_Some_elem_of, list_elem_of_filter in Ex as [Hname Hx].
      split; [|by eauto]. intros _. by exists x.
    + apply last_None in Ex. split; [by intros [? ?]|].
      intros (b & -> & Hb). by destruct (filter_nil_not_elem_of _ _ b Ex).
Qed.

End RegistryMore.

(** ** More on list_analyzers *)

Section ListAnalyzersMore.
Context {A : Type} `{LanguageAnalyzer A}.

Lemma concat_set_present (r : PyDict.dict (list string)) k old x :
  PyDict.get k r = Some old ->
  concat (snd <$> PyDict.set k (old ++ x)%list r) ≡ₚ (concat (snd <$> r) ++ x)%list.
Proof.
  induction r as [|[k' v'] r IH]; csimpl; [done|].
  destruct (String.eqb_spec k k') as [->|Hne]; csimpl.
  - intros [= ->]. rewrite <- !app_assoc. apply Permutation_app_head.
    apply Permutation_app_comm.
  - intros Hget. rewrite (IH Hget). by rewrite app_assoc.
Qed.

Lemma concat_set_absent (r : PyDict.dict (list string)) k v :
  PyDict.get k r = None ->
  concat (snd <$> PyDict.set k v r) = (concat (snd <$> r) ++ v)%list.
Proof.
  induction r as [|[k' v'] r IH]; csimpl; [by rewrite app_nil_r|].
  destruct (String.eqb_spec k k') as [->|Hne]; csimpl; [done|].
  intros Hget. by rewrite (IH Hget), app_assoc.
Qed.

Lemma list_analyzers_step_concat (r : PyDict.dict (list string)) (a : A) :
  concat (snd <$> list_analyzers_step r a)
  ≡ₚ (concat (snd <$> r) ++ supported_extensions a)%list.
Proof.
  unfold list_analyzers_step, PyDict.contains.
  destruct (PyDict.get (class_name a) r) as [old|] eqn:E; simpl.
  - rewrite E. simpl. by apply concat_set_present.
  - rewrite PyDictFacts.get_set_eq. simpl.
    pose proof (concat_set_present (PyDict.set (class_name a) [] r)
                  (class_name a) [] (supported_extensions a)
                  (PyDictFacts.get_set_eq _ _ _)) as Hp.
    simpl in Hp. rewrite Hp. by rewrite concat_set_absent, app_nil_r.
Qed.

Lemma list_analyzers_fold_concat (r : PyDict.dict (list string)) (vs : list A) :
  concat (snd <$> foldl list_analyzers_step r vs)
  ≡ₚ (concat (snd <$> r) ++ concat (supported_extensions <$> vs))%list.
Proof.
  revert r. induction vs as [|a vs IH]; intros r; csimpl.
  - by rewrite app_nil_r.
  - by rewrite IH, list_analyzers_step_concat, app_assoc.
Qed.

(** X12: [list_analyzers] neither loses nor invents an extension: its
    lists, taken together, hold the supported extensions of the stored
    analyzers, each as often as it is declared. *)
Theorem list_analyzers_keeps_all_extensions (self : AnalyzerRegistry A) :
  concat (snd <$> list_analyzers self)
  ≡ₚ concat (supported_extensions <$> PyDict.values (_analyzers self)).
Proof. unfold list_analyzers. by rewrite list_analyzers_fold_concat. Qed.

End ListAnalyzersMore.

(** ** More on register_defaults *)

Section DefaultsMore.
Context {A : Type} `{LanguageAnalyzer A} `{StrLower}.
Variable DefaultAnalyzer : list string -> string -> A.

Local Abbreviation build := (build_default DefaultAnalyzer).

Lemma defaults_table : defaults DefaultAnalyzer = build <$> default_table.
Proof. reflexivity. Qed.

Lemma default_names_not_skipped :
  Forall (fun row : list string * string => row.2 ∉ skip_languages) default_table.
Proof.
  unfold default_table.
  repeat (constructor;
          [rewrite skip_languages_members; cbn [snd];
           intros [?|[?|[?|?]]]; discriminate|]).
  constructor.
Qed.

Lemma default_names_distinct : NoDup (snd <$> default_table).
Proof. by apply (bool_decide_unpack _). Qed.

Lemma default_names_not_empty :
  Forall (fun row : list string * string => row.2 <> "") default_table.
Proof. unfold default_table. repeat (constructor; [discriminate|]). constructor. Qed.

(** An extension of one row of the table is in no other row. *)
Lemma default_table_owner row (e : string) :
  row ∈ default_table -> e ∈ row.1 ->
  filter (fun r : list string * string => e ∈ r.1) default_table = [row].
Proof.
  unfold default_table. intros Hrow He.
  repeat (apply elem_of_cons in Hrow as [->|Hrow];
          [cbn [fst] in He;
           repeat (apply elem_of_cons in He as [->|He]; [by vm_compute|]);
           by apply elem_of_nil in He|]).
  by apply elem_of_nil in Hrow.
Qed.

Lemma filter_unique {X Y} `{EqDecision Y} (g : X -> Y) (t : list X) x :
  NoDup (g <$> t) -> x ∈ t -> filter (fun y => g y = g x) t = [x].
Proof.
  induction t as [|y t IH]; csimpl; [by intros _ ?%elem_of_nil|].
  intros [Hy Ht]%NoDup_cons [->|Hx]%elem_of_cons.
  - rewrite filter_cons_True by done. f_equal.
    apply filter_nothing. intros z Hz Hg. apply Hy. rewrite <- Hg.
    by apply list_elem_of_fmap_2.
  - rewrite filter_cons_False; [by apply IH|].
    intros Hg. apply Hy. rewrite Hg. by apply list_elem_of_fmap_2.
Qed.

Hypothesis language_name_built :
  forall exts language, language_name (DefaultAnalyzer exts language) = language.

Lemma register_defaults_registers_all (_registry : AnalyzerRegistry A) :
  register_defaults DefaultAnalyzer _registry
  = register_all _registry (defaults DefaultAnalyzer).
Proof.
  unfold register_defaults, register_all. rewrite defaults_table.
  pose proof default_names_not_skipped as Hskip.
  revert _registry. induction Hskip as [|row t Hrow Ht IH]; intros r; csimpl; [done|].
  rewrite IH. f_equal. unfold register_default_step, register_analyzer.
  rewrite bool_decide_eq_true_2; [done|].
  unfold build_default. by rewrite language_name_built.
Qed.

Lemma filter_built_names (t : list (list string * string)) (language : string) :
  filter (fun b => language_name b = language) (build <$> t)
  = build <$> filter (fun row => row.2 = language) t.
Proof.
  induction t as [|row t IH]; csimpl; [done|].
  destruct (decide (row.2 = language)) as [Hr|Hr].
  - rewrite (filter_cons_True (fun b => language_name b = language))
      by (unfold build_default; by rewrite language_name_built).
    rewrite (filter_cons_True (fun r : list string * string => r.2 = language))
      by done.
    csimpl. by rewrite IH.
  - rewrite (filter_cons_False (fun b => language_name b = language))
      by (unfold build_default; by rewrite language_name_built).
    by rewrite (filter_cons_False (fun r : list string * string => r.2 = language))
      by done.
Qed.

Lemma register_defaults_lookup_language (_registry : AnalyzerRegistry A)
    (exts : list string) (language : string) :
  (exts, language) ∈ default_table ->
  get_analyzer_by_language (register_defaults DefaultAnalyzer _registry) language
  = Some (DefaultAnalyzer exts language).
Proof.
  intros Hrow.
  rewrite register_defaults_registers_all, register_all_lookup_language.
  rewrite defaults_table, filter_built_names.
  change language with (snd (exts, language)) at 1.
  by rewrite (filter_unique snd default_table (exts, language)
                default_names_distinct Hrow).
Qed.

(** X13: when [DefaultAnalyzer] answers the language name it was built
    with, [register_defaults] skips none of its defaults, it registers all
    of them in order, and each default language name then leads to its
    default analyzer, whatever was registered under that name before. *)
Theorem register_defaults_overwrites (_registry : AnalyzerRegistry A)
    (exts : list string) (language : string) :
  (exts, language) ∈ default_table ->
  register_defaults DefaultAnalyzer _registry
  = register_all _registry (defaults DefaultAnalyzer)
  /\ get_analyzer_by_language (register_defaults DefaultAnalyzer _registry) language
     = Some (DefaultAnalyzer exts language).
Proof.
  intros Hrow. split.
  - apply register_defaults_registers_all.
  - by apply register_defaults_lookup_language.
Qed.

Hypothesis supported_extensions_built :
  forall exts language, supported_extensions (DefaultAnalyzer exts language) = exts.

Lemma filter_built_extensions (t : list (list string * string)) (e : string) :
  filter (fun b => e ∈ supported_extensions b) (build <$> t)
  = build <$> filter (fun row => e ∈ row.1) t.
Proof.
  induction t as [|row t IH]; csimpl; [done|].
  destruct (decide (e ∈ row.1)) as [Hr|Hr].
  - rewrite (filter_cons_True (fun b => e ∈ supported_extensions b))
      by (unfold build_default; by rewrite supported_extensions_built).
    rewrite (filter_cons_True (fun r : list string * string => e ∈ r.1)) by done.
    csimpl. by rewrite IH.
  - rewrite (filter_cons_False (fun b => e ∈ supported_extensions b))
      by (unfold build_default; by rewrite supported_extensions_built).
    by rewrite (filter_cons_False (fun r : list string * string => e ∈ r.1))
      by done.
Qed.

(** X14: when [DefaultAnalyzer] answers the language name and the
    extensions it was built with, after [register_defaults] every file whose
    extension is in a row of the defaults leads to the default analyzer of
    that row, whatever was registered before. *)
Theorem register_defaults_serves_extensions (_registry : AnalyzerRegistry A)
    (exts : list string) (language e filename : string) :
  (exts, language) ∈ default_table ->
  e ∈ exts ->
  file_ext filename = e ->
  get_analyzer_for_file (register_defaults DefaultAnalyzer _registry) filename
  = Some (DefaultAnalyzer exts language).
Proof.
  intros Hrow He Hext.
  apply lookup_file_via_extension with (language := language).
  - rewrite Hext, register_defaults_registers_all, register_all_lookup_extension.
    rewrite defaults_table, filter_built_extensions.
    rewrite (default_table_owner (exts, language) e Hrow He). csimpl.
    unfold build_default. by rewrite language_name_built.
  - pose proof default_names_not_empty as Hne.
    rewrite Forall_forall in Hne. apply (Hne _ Hrow).
  - by apply register_defaults_lookup_language.
Qed.

End DefaultsMore.

(** ** More on auto_discover *)

Section DiscoveryMore.
Context {A : Type} `{LanguageAnalyzer A}.
Variable env : Env A.
Implicit Types (w : World A) (path : option string).

Lemma for_each_nothing {X} (l : list X) (body : X -> M A unit) w :
  (forall x w', x ∈ l -> body x w' = (w', Returned tt)) ->
  for_each l body w = (w, Returned tt).
Proof.
  induction l as [|x l IH]; intros Hbody; [done|].
  simpl for_each. unfold mbind, M_bind.
  rewrite Hbody by (by left). apply IH.
  intros y w' Hy. apply Hbody. by right.
Qed.

Lemma instances_stop_at_failure (pre rest : PyModule A) n attr e :
  instantiation_failure pre = None ->
  is_plugin_class attr = true ->
  call attr = Raised e ->
  instances (pre ++ (n, attr) :: rest)%list = instances pre
  /\ instantiation_failure (pre ++ (n, attr) :: rest)%list = Some e.
Proof.
  intros Hpre Hattr Hcall.
  induction pre as [|[n' attr'] pre IH]; simpl in *.
  - by rewrite Hattr, Hcall.
  - destruct (is_plugin_class attr'); [|by apply IH].
    destruct (call attr') as [a|e']; [|done].
    destruct (IH Hpre) as [-> ->]. done.
Qed.

(** X15: when every entry of the directory either does not match [*.py]
    or starts with two underscores, [auto_discover] imports nothing and
    leaves the registry and the log as they were. *)
Theorem auto_discover_ignores_other_files path w (names : list string) :
  fs env (directory_of env path) = Directory names ->
  (forall name, name ∈ names ->
     PyStr.endswith ".py" name = false \/ PyStr.startswith "__" name = true) ->
  auto_discover env path w = (w, Returned tt).
Proof.
  intros Hfs Hnames. unfold auto_discover, path_exists, glob.
  rewrite Hfs. cbn [negb].
  apply for_each_nothing. intros name w' [Hpy Hname]%list_elem_of_filter.
  unfold discover_file.
  destruct (Hnames name Hname) as [Hno | ->]; [|done].
  rewrite Hno in Hpy. by destruct Hpy.
Qed.

(** X16: when an analyzer class of a module raises an [Exception] on
    instantiation, the analyzers of the classes before it stay registered,
    the classes after it are not instantiated, the failure is logged and
    nothing is raised. *)
Theorem classes_after_failure_are_skipped (py_file : string) w
    (pre rest : PyModule A) (n : string) (attr : PyObject A) (e : PyException) :
  PyStr.startswith "__" py_file = false ->
  import_module env (module_name_of py_file) = Returned (pre ++ (n, attr) :: rest)%list ->
  instantiation_failure pre = None ->
  is_plugin_class attr = true ->
  call attr = Raised e ->
  isinstance_Exception e = true ->
  snd (discover_file env py_file w) = Returned tt
  /\ registry (fst (discover_file env py_file w))
     = register_all (registry w) (instances pre)
  /\ ErrorFailedToLoad (module_name_of py_file) e
       ∈ log (fst (discover_file env py_file w)).
Proof.
  intros Hname Himport Hpre Hattr Hcall Hexc.
  destruct (instances_stop_at_failure pre rest n attr e Hpre Hattr Hcall)
    as [Hinst Hfail].
  assert (imported_failure env py_file = Some e) as Himp
    by (unfold imported_failure; by rewrite Himport).
  destruct (discover_file_spec env py_file w) as (extra & -> & Herr).
  cbn [fst snd registry log]. rewrite Hname, Himp.
  unfold imported_instances, after_handler. rewrite Himport, Hinst, Hexc.
  split_and!; [done|done|].
  apply elem_of_app. right. by apply (Herr Hname).
Qed.

(** X17: attributes of a module that are not classes, classes that do
    not derive from [LanguageAnalyzer], and [LanguageAnalyzer] itself are
    never called: a module made of such attributes only leaves the registry
    and the log as they were, whatever calling them would do. *)
Theorem only_analyzer_classes_are_called (py_file : string) w (module : PyModule A) :
  PyStr.startswith "__" py_file = false ->
  import_module env (module_name_of py_file) = Returned module ->
  (forall entry, entry ∈ module -> is_plugin_class entry.2 = false) ->
  discover_file env py_file w = (w, Returned tt).
Proof.
  intros Hname Himport Hmodule. unfold discover_file. rewrite Hname.
  unfold try_except, load_plugin, mbind, M_bind, lift. rewrite Himport.
  rewrite for_each_nothing; [done|].
  intros [attr_name attr] w' Hentry. unfold register_plugin_class.
  change (isinstance_type attr && issubclass_LanguageAnalyzer attr
          && negb (is_LanguageAnalyzer attr)) with (is_plugin_class attr).
  pose proof (Hmodule _ Hentry) as Hno. cbn [snd] in Hno. by rewrite Hno.
Qed.

Lemma auto_discover_extends path w :
  exists l extra,
    fst (auto_discover env path w)
    = {| registry := register_all (registry w) l; log := log w ++ extra |}.
Proof.
  unfold auto_discover, path_exists, glob, mbind, M_bind, lift.
  destruct (fs env (directory_of env path)) as [| |names|e]; cbn [negb].
  - by exists [], [WarningNoDirectory (directory_of env path)].
  - exists [], []. simpl. by rewrite world_log_nil.
  - apply scan_extends.
  - exists [], []. simpl. by rewrite world_log_nil.
Qed.

(** X18: [auto_discover] only adds: the log keeps its records, and a
    language name or an extension known to the registry before the call is
    known after it. *)
Theorem auto_discover_only_adds path w (name e : string) :
  (exists extra, log (fst (auto_discover env path w)) = (log w ++ extra)%list)
  /\ (is_Some (get_analyzer_by_language (registry w) name) ->
      is_Some (get_analyzer_by_language
                 (registry (fst (auto_discover env path w))) name))
  /\ (is_Some (_extension_map (registry w) !! e) ->
      is_Some (_extension_map (registry (fst (auto_discover env path w))) !! e)).
Proof.
  destruct (auto_discover_extends path w) as (l & extra & ->).
  cbn [registry log]. split_and!.
  - by exists extra.
  - apply register_all_keeps_language.
  - apply register_all_keeps_extension.
Qed.

End DiscoveryMore.

(** ** The further properties on sample analyzers *)

Section FurtherSamples.
#[local] Existing Instance ascii_text.

Lemma lookup_ignores_directories_witness :
  get_analyzer_for_file (register init go_analyzer)
    ("src/pkg" +:+ String "/"%char "main.go")
  = get_analyzer_for_file (register init go_analyzer) "main.go".
Proof.
  apply (lookup_ignores_directories (register init go_analyzer) "src/pkg" "main.go").
  reflexivity.
Defined.

Lemma lookup_without_extension_witness :
  get_analyzer_for_file (register_all init [go_analyzer; rust_custom])
    "repo/.gitignore" = None.
Proof.
  apply (lookup_without_extension [go_analyzer; rust_custom] "repo/.gitignore").
  - reflexivity.
  - intros a Ha Hempty.
    apply elem_of_cons in Ha as [->|Ha];
      [|apply elem_of_cons in Ha as [->|Ha]; [|by apply elem_of_nil in Ha]];
      vm_compute in Hempty;
      repeat (apply elem_of_cons in Hempty as [Hempty|Hempty]; [discriminate|]);
      by apply elem_of_nil in Hempty.
Defined.

Lemma register_never_removes_witness :
  is_Some (get_analyzer_by_language
             (register_all (register init rust_custom) [go_analyzer; rust_generic])
             "rust")
  /\ is_Some (list_supported_extensions
                (register_all (register init rust_custom) [go_analyzer; rust_generic])
              !! ".rlib").
Proof.
  destruct (register_never_removes (register init rust_custom)
              [go_analyzer; rust_generic] "rust" ".rlib") as [Hname Hext].
  split; [apply Hname|apply Hext]; by eexists.
Defined.

Lemma replaced_analyzer_inherits_extensions_witness :
  get_analyzer_for_file (register (register init rust_custom) rust_generic)
    "target/lib.rlib" = Some rust_generic.
Proof.
  apply (replaced_analyzer_inherits_extensions (register init rust_custom)
           rust_generic "target/lib.rlib").
  - by vm_compute.
  - discriminate.
Defined.

Lemma lookup_returns_registered_witness :
  go_analyzer ∈ [ruby_analyzer; go_analyzer]
  /\ language_name go_analyzer <> ""
  /\ exists b, b ∈ [ruby_analyzer; go_analyzer]
               /\ language_name b = language_name go_analyzer
               /\ file_ext "cmd/main.go" ∈ supported_extensions b.
Proof.
  apply (lookup_returns_registered [ruby_analyzer; go_analyzer] "cmd/main.go"
           go_analyzer).
  by vm_compute.
Defined.

Lemma register_commutes_witness :
  list_supported_extensions (register (register init go_analyzer) ruby_analyzer)
  = list_supported_extensions (register (register init ruby_analyzer) go_analyzer)
  /\ (forall name,
        get_analyzer_by_language
          (register (register init go_analyzer) ruby_analyzer) name
        = get_analyzer_by_language
            (register (register init ruby_analyzer) go_analyzer) name)
  /\ (forall filename,
        get_analyzer_for_file
          (register (register init go_analyzer) ruby_analyzer) filename
        = get_analyzer_for_file
            (register (register init ruby_analyzer) go_analyzer) filename).
Proof.
  apply (register_commutes init go_analyzer ruby_analyzer).
  - discriminate.
  - intros e He Hb. cbn in He, Hb.
    apply list_elem_of_singleton in He as ->.
    apply list_elem_of_singleton in Hb. discriminate Hb.
Defined.

Lemma register_defaults_overwrites_witness :
  register_defaults sample_DefaultAnalyzer (register init rust_custom)
  = register_all (register init rust_custom) (defaults sample_DefaultAnalyzer)
  /\ get_analyzer_by_language
       (register_defaults sample_DefaultAnalyzer (register init rust_custom)) "rust"
     = Some (sample_DefaultAnalyzer [".rs"] "rust").
Proof.
  apply (register_defaults_overwrites sample_DefaultAnalyzer).
  - reflexivity.
  - vm_compute. do 9 right. by left.
Defined.

Lemma register_defaults_serves_extensions_witness :
  get_analyzer_for_file
    (register_defaults sample_DefaultAnalyzer (register init rust_custom))
    "src/main.RS"
  = Some (sample_DefaultAnalyzer [".rs"] "rust").
Proof.
  apply (register_defaults_serves_extensions sample_DefaultAnalyzer)
    with (e := ".rs").
  - reflexivity.
  - reflexivity.
  - vm_compute. do 9 right. by left.
  - by left.
  - reflexivity.
Defined.

Lemma auto_discover_ignores_other_files_witness :
  auto_discover half_broken_env (Some "docs") empty_world
  = (empty_world, Returned tt).
Proof.
  apply (auto_discover_ignores_other_files half_broken_env (Some "docs")
           empty_world ["README.md"; "__init__.py"; "conf.py.bak"]).
  - reflexivity.
  - intros name Hname.
    repeat (apply elem_of_cons in Hname as [->|Hname];
            [vm_compute; by auto|]).
    by apply elem_of_nil in Hname.
Defined.

Lemma classes_after_failure_are_skipped_witness :
  snd (discover_file half_broken_env "mixed.py" empty_world) = Returned tt
  /\ registry (fst (discover_file half_broken_env "mixed.py" empty_world))
     = register_all (registry empty_world)
         (instances [("AFoo", Class true false (Returned foo_analyzer))])
  /\ ErrorFailedToLoad (module_name_of "mixed.py") (Exception "boom")
       ∈ log (fst (discover_file half_broken_env "mixed.py" empty_world)).
Proof.
  apply (classes_after_failure_are_skipped half_broken_env "mixed.py" empty_world
           [("AFoo", Class true false (Returned foo_analyzer))]
           [("ZRuby", Class true false (Returned ruby_analyzer))]
           "Broken" (Class true false (Raised (Exception "boom"))));
    reflexivity.
Defined.

Lemma only_analyzer_classes_are_called_witness :
  discover_file half_broken_env "helpers.py" empty_world
  = (empty_world, Returned tt).
Proof.
  apply (only_analyzer_classes_are_called half_broken_env "helpers.py" empty_world
           [ ("LanguageAnalyzer",
              Class true true (Raised (Exception "abstract class")));
             ("Path", Class false false (Raised (Exception "missing argument")));
             ("logger", NotAType) ]).
  - reflexivity.
  - reflexivity.
  - intros entry Hentry.
    repeat (apply elem_of_cons in Hentry as [->|Hentry]; [reflexivity|]).
    by apply elem_of_nil in Hentry.
Defined.

Lemma auto_discover_only_adds_witness :
  (exists extra,
     log (fst (auto_discover half_broken_env None
                 {| registry := register init go_analyzer; log := [] |}))
     = ([] ++ extra)%list)
  /\ is_Some (get_analyzer_by_language
                (registry (fst (auto_discover half_broken_env None
                   {| registry := register init go_analyzer; log := [] |}))) "go")
  /\ is_Some (_extension_map
                (registry (fst (auto_discover half_broken_env None
                   {| registry := register init go_analyzer; log := [] |})))
              !! ".go").
Proof.
  destruct (auto_discover_only_adds half_broken_env None
              {| registry := register init go_analyzer; log := [] |} "go" ".go")
    as (Hlog & Hname & Hext).
  split_and!; [exact Hlog|apply Hname|apply Hext]; by eexists.
Defined.

End FurtherSamples.

(** ** From file names to module names *)

Section ModuleNames.
Import PyStr PyStrFacts PyStrMore.

Lemma length_append s1 s2 :
  String.length (s1 +:+ s2) = (String.length s1 + String.length s2)%nat.
Proof.
  induction s1 as [|a s1 IH]; [done|].
  rewrite append_cons. simpl. by rewrite IH.
Qed.

Lemma take_app_length s1 s2 : take (String.length s1) (s1 +:+ s2) = s1.
Proof.
  induction s1 as [|a s1 IH]; [done|].
  rewrite append_cons. simpl. by rewrite IH.
Qed.

Lemma py_file_module_name (name : string) :
  name <> "" ->
  endswith ".py" (name +:+ ".py") = true
  /\ module_name_of (name +:+ ".py") = "codesitter.analyzers.languages." +:+ name.
Proof.
  intros Hname.
  assert (PathLib.stem (name +:+ ".py") = name) as Hstem.
  { unfold PathLib.stem, len, slice_to.
    rewrite rfind_app. change (rfind "."%char ".py") with 0.
    change (0 <=? 0) with true. cbv iota. unfold len.
    rewrite length_append. change (String.length ".py") with 3%nat.
    assert (0 < Z.of_nat (String.length name)) by (destruct name; simpl; [done|lia]).
    destruct (Z.ltb_spec 0 (Z.of_nat (String.length name) + 0)); [|lia].
    destruct (Z.ltb_spec (Z.of_nat (String.length name) + 0)
                (Z.of_nat (String.length name + 3) - 1)); [|lia].
    cbn [andb].
    replace (Z.to_nat (Z.of_nat (String.length name) + 0))
      with (String.length name) by lia.
    apply take_app_length. }
  split; [|by unfold module_name_of; rewrite Hstem].
  unfold endswith. rewrite length_append.
  change (String.length ".py") with 3%nat.
  replace (String.length name + 3 - 3)%nat with (String.length name) by lia.
  rewrite drop_app_length.
  apply andb_true_iff. split; [apply Nat.leb_le; lia|reflexivity].
Qed.

Context {A : Type} `{LanguageAnalyzer A}.
Variable env : Env A.

(** X19: for a file [name.py] with a non-empty [name] that does not start
    with two underscores, the scan imports the module
    [codesitter.analyzers.languages.name]. When that import raises an
    [Exception], the file leaves one error record for that module, nothing
    is registered and nothing is raised; when it returns a module, the
    analyzers of that module are what the file registers. *)
Theorem scan_imports_module_of_stem (name : string) (w : World A) :
  name <> "" ->
  startswith "__" (name +:+ ".py") = false ->
  (forall e,
     import_module env ("codesitter.analyzers.languages." +:+ name) = Raised e ->
     isinstance_Exception e = true ->
     discover_file env (name +:+ ".py") w
     = ({| registry := registry w;
           log := log w
                  ++ [ErrorFailedToLoad ("codesitter.analyzers.languages." +:+ name) e] |},
        Returned tt))
  /\ (forall module,
        import_module env ("codesitter.analyzers.languages." +:+ name)
        = Returned module ->
        registry (fst (discover_file env (name +:+ ".py") w))
        = register_all (registry w) (instances module)).
Proof.
  intros Hname Hstart.
  destruct (py_file_module_name name Hname) as [_ Hmodule].
  split.
  - intros e Himport Hexc.
    unfold discover_file, try_except, load_plugin, mbind, M_bind, lift.
    by rewrite Hstart, Hmodule, Himport, Hexc.
  - intros module Himport.
    destruct (discover_file_spec env (name +:+ ".py") w) as (extra & -> & _).
    cbn [fst registry]. rewrite Hstart.
    unfold imported_instances. by rewrite Hmodule, Himport.
Qed.

End ModuleNames.

Lemma scan_imports_module_of_stem_witness :
  registry (fst (discover_file half_broken_env ("mixed" +:+ ".py") empty_world))
  = register_all (registry empty_world)
      (instances [ ("AFoo", Class true false (Returned foo_analyzer));
                   ("Broken", Class true false (Raised (Exception "boom")));
                   ("ZRuby", Class true false (Returned ruby_analyzer)) ]).
Proof.
  refine (proj2 (scan_imports_module_of_stem half_broken_env "mixed" empty_world
                   _ _) _ _).
  - discriminate.
  - reflexivity.
  - reflexivity.
Defined.
